(** * Front-run strategy evaluators: a shallow embedding

    The four strategy classes of the repository
    ([AggressiveFrontRunStrategy], [PredictiveFrontRunStrategy],
    [VolatilityFrontRunStrategy], [AdvancedFrontRunStrategy]) are embedded
    as functions into a small trace-and-exception monad.  Every awaited
    collaborator call and every log record is an event of the trace, a
    Python exception is the [Raised] outcome, and Python [float]s are IEEE
    754 binary64 values ([spec_float] with precision 53).

    The injected collaborators are fields of a record per class, typed as
    the annotations of the constructors say: each is a function of its
    arguments that returns a value or raises.  A fetcher may in addition
    return [None] or an exception instance, the two cases the code tests
    for.  The fetchers that are handed to [asyncio.gather] are modelled in
    two steps, as the code uses them: the call, which returns an awaitable
    or raises, and the awaitable, which ends in a value, in an exception or
    cancelled.  Numbers are floats throughout; the integer literals of the code
    ([1], [100], [0], the default thresholds) are the floats of the same
    value. *)

From Stdlib Require Import ZArith List Floats.PrimFloat Floats.FloatOps Floats.SpecFloat.
From stdpp Require Import base option gmap strings.
Import ListNotations.

Local Open Scope Z_scope.
Local Open Scope string_scope.

(** ** Python values *)

(** Python [float]: binary64.  The literals are written as primitive
    floats and evaluated once to their [spec_float] form. *)
Definition float64 : Type := spec_float.

Definition f64 (x : PrimFloat.float) : float64 := Prim2SF x.

Definition fdiv (x y : float64) : float64 := SFdiv FloatOps.prec FloatOps.emax x y.
Definition fsub (x y : float64) : float64 := SFsub FloatOps.prec FloatOps.emax x y.
Definition fmul (x y : float64) : float64 := SFmul FloatOps.prec FloatOps.emax x y.
Definition fadd (x y : float64) : float64 := SFadd FloatOps.prec FloatOps.emax x y.
Definition fsqrt (x : float64) : float64 := SFsqrt FloatOps.prec FloatOps.emax x.

Definition zero : float64 := Eval vm_compute in f64 0%float.
Definition one : float64 := Eval vm_compute in f64 1%float.
Definition hundred : float64 := Eval vm_compute in f64 100%float.

(** The configuration defaults: 0.01, 60, 70 and 75. *)
Definition default_min_value_eth : float64 :=
  Eval vm_compute in f64 0x1.47ae147ae147bp-7%float.
Definition sixty : float64 := Eval vm_compute in f64 60%float.
Definition seventy : float64 := Eval vm_compute in f64 70%float.
Definition seventy_five : float64 := Eval vm_compute in f64 75%float.

(** [x == y], [x < y] and [x >= y] on floats; every comparison with a NaN
    is false. *)
Definition py_eq (x y : float64) : bool := SFeqb x y.
Definition py_lt (x y : float64) : bool := SFltb x y.
Definition py_ge (x y : float64) : bool := SFleb y x.

(** The exceptions that occur.  All of them are instances of Python's
    [Exception]; [CollaboratorError] stands for whatever an injected
    collaborator raises.  The one exception outside [Exception] that the
    code can meet as a value, the [CancelledError] that [asyncio.gather]
    stores for a cancelled branch, is the value [CancelledInstance]
    below. *)
Inductive exn : Type :=
| ZeroDivisionError
| TypeError
| ValueError
| AttributeError
| KeyError (key : string)
| CollaboratorError (msg : string).

(** What a call gives back: a value or a raised exception. *)
Inductive outcome (A : Type) : Type :=
| Returned (a : A)
| Raised (e : exn).
Arguments Returned {A} a.
Arguments Raised {A} e.

(** What a signal variable holds: a value of the annotated type, [None],
    an instance of [Exception] (which is what [asyncio.gather] with
    [return_exceptions=True] stores for a fetcher that raised, and what a
    fetcher may hand back itself), or an instance of [CancelledError]
    (which is what it stores for a fetcher that was cancelled; it derives
    from [BaseException], not from [Exception]). *)
Inductive fetched (A : Type) : Type :=
| Value (a : A)
| PyNone
| ExcInstance (e : exn)
| CancelledInstance.
Arguments Value {A} a.
Arguments PyNone {A}.
Arguments ExcInstance {A} e.
Arguments CancelledInstance {A}.

(** [isinstance(x, Exception)] and [x is None]. *)
Definition is_exception {A} (x : fetched A) : bool :=
  match x with ExcInstance _ => true | _ => false end.

Definition is_cancelled {A} (x : fetched A) : bool :=
  match x with CancelledInstance => true | _ => false end.

Definition is_none {A} (x : fetched A) : bool :=
  match x with PyNone => true | _ => false end.

(** Dictionaries: the target transaction, the decoded transaction, the
    market-conditions flags and the configuration. *)
Abbreviation transaction := (gmap string string).
Abbreviation decoded := (gmap string string).
Abbreviation conditions := (gmap string bool).
Abbreviation configuration := (gmap string float64).

(** [d[k]] raises [KeyError] on a missing key. *)
Definition py_getitem (d : transaction) (k : string) : outcome string :=
  match d !! k with
  | Some v => Returned v
  | None => Raised (KeyError k)
  end.

(** [config.get(k, dflt)]. *)
Definition config_get (c : configuration) (k : string) (dflt : float64) : float64 :=
  default dflt (c !! k).

(** [market_conditions.get(k, dflt)]: [None] and exception instances have
    no [get] attribute. *)
Definition dict_get (mc : fetched conditions) (k : string) (dflt : bool) : outcome bool :=
  match mc with
  | Value d => Returned (default dflt (d !! k))
  | PyNone => Raised AttributeError
  | ExcInstance _ => Raised AttributeError
  | CancelledInstance => Raised AttributeError
  end.

(** [float(x)]. *)
Definition py_float (x : fetched float64) : outcome float64 :=
  match x with
  | Value v => Returned v
  | PyNone => Raised TypeError
  | ExcInstance _ => Raised TypeError
  | CancelledInstance => Raised TypeError
  end.

(** [x / y] with a float divisor: the operand types are checked before the
    divisor is, and a zero divisor (of either sign) raises. *)
Definition py_truediv (x : fetched float64) (y : float64) : outcome float64 :=
  match x with
  | Value v => if py_eq y zero then Raised ZeroDivisionError else Returned (fdiv v y)
  | PyNone => Raised TypeError
  | ExcInstance _ => Raised TypeError
  | CancelledInstance => Raised TypeError
  end.

(** The expression [(predicted_price / float(current_price) - 1) * 100]. *)
Definition price_change_pct (predicted_price current_price : fetched float64) : outcome float64 :=
  match py_float current_price with
  | Raised e => Raised e
  | Returned c =>
      match py_truediv predicted_price c with
      | Raised e => Raised e
      | Returned q => Returned (fmul (fsub q one) hundred)
      end
  end.

(** Truth value of a list-typed variable: [None] and [[]] are false. *)
Definition truthy {A} (x : fetched (list A)) : bool :=
  match x with
  | Value [] => false
  | Value (_ :: _) => true
  | PyNone => false
  | ExcInstance _ => true
  | CancelledInstance => true
  end.

(** [min(xs)] and [max(xs)]: the first element, replaced by each later one
    that compares strictly below (above) it. *)
Definition min_of (x : float64) (xs : list float64) : float64 :=
  fold_left (fun acc y => if py_lt y acc then y else acc) xs x.

Definition max_of (x : float64) (xs : list float64) : float64 :=
  fold_left (fun acc y => if py_lt acc y then y else acc) xs x.

Definition py_min (xs : fetched (list float64)) : outcome float64 :=
  match xs with
  | Value [] => Raised ValueError
  | Value (x :: l) => Returned (min_of x l)
  | PyNone => Raised TypeError
  | ExcInstance _ => Raised TypeError
  | CancelledInstance => Raised TypeError
  end.

Definition py_max (xs : fetched (list float64)) : outcome float64 :=
  match xs with
  | Value [] => Raised ValueError
  | Value (x :: l) => Returned (max_of x l)
  | PyNone => Raised TypeError
  | ExcInstance _ => Raised TypeError
  | CancelledInstance => Raised TypeError
  end.

(** A replacement field with a float format spec ([{x:.2f}], [{x:,.2f}]):
    [None] and exception instances reject the spec. *)
Definition fmt_f (x : fetched float64) : outcome float64 :=
  match x with
  | Value v => Returned v
  | PyNone => Raised TypeError
  | ExcInstance _ => Raised TypeError
  | CancelledInstance => Raised TypeError
  end.

(** The two NumPy reductions the predictive strategy imports.  They are
    taken as given; on a list of floats both return a [numpy.float64],
    whose division follows IEEE 754 and does not raise. *)
Record numpy : Type := {
  std : list float64 -> float64;
  mean : list float64 -> float64
}.

(** The expression
    [np.std(hs) / np.mean(hs) if hs else 0]. *)
Definition volatility_ratio (np : numpy) (historical_prices : fetched (list float64))
  : outcome float64 :=
  if truthy historical_prices then
    match historical_prices with
    | Value l => Returned (fdiv (std np l) (mean np l))
    | PyNone => Raised TypeError
    | ExcInstance _ => Raised TypeError
    | CancelledInstance => Raised TypeError
    end
  else Returned zero.

(** ** Events, log records and the execution monad *)

Inductive level : Type := DEBUG | WARNING | ERROR.

(** The signal fetchers, by the name of the constructor argument that
    injects them. *)
Inductive fetcher : Type :=
| get_price_change_24h_func
| predict_price_movement_func
| get_real_time_price_func
| check_market_conditions_func
| get_token_price_data_func
| get_token_volume_func.

(** The log records, each with the values its f-string formats. *)
Inductive message : Type :=
| Initiating
| GatherIncomplete
| MissingPriceData
| GatherError (e : exn)
| ExecutingAggressive (risk_score : float64)
| PredictiveAnalysis (token_symbol : string)
    (current_price predicted_price expected_change volatility opportunity_score : float64)
    (market_conditions : fetched conditions)
| ExecutingPredictive (token_symbol : string) (opportunity_score expected_change : float64)
| VolatilityAnalysis (token_symbol : string) (volatility_score : float64)
    (current_price : fetched float64) (range_low range_high : float64)
    (market_conditions : fetched conditions)
| AdvancedAnalysis (token_symbol : string) (price_increase : float64)
    (is_bullish is_volatile has_liquidity : bool) (volume risk_score : float64)
| Executing (token_symbol : string) (score : float64)
| BelowThreshold (score : float64).

(** The arguments of the three score reducers. *)
Inductive score_call : Type :=
| RiskScore (target_tx : transaction) (token_symbol : string)
    (price_change : fetched float64)
| OpportunityScore (price_change volatility : float64)
    (market_conditions : fetched conditions) (current_price : fetched float64)
    (historical_prices : fetched (list float64))
| VolatilityScore (historical_prices : fetched (list float64))
    (current_price : fetched float64) (market_conditions : fetched conditions).

Inductive event : Type :=
| CallValidate (target_tx : transaction) (intent : string) (min_value : option float64)
| CallFetch (f : fetcher) (arg : string)
| CallScore (c : score_call)
| CallFrontRun (target_tx : transaction)
| LogRecord (lvl : level) (msg : message).

(** A run of a coroutine: the events it produced, in order, and how it
    ended. *)
Record run (A : Type) : Type := Run { trace : list event; result : outcome A }.
Arguments Run {A} trace result.
Arguments trace {A} r.
Arguments result {A} r.

Definition ret {A} (a : A) : run A := Run [] (Returned a).

(** The events [tr] happen, then the run [r]. *)
Definition after {A} (tr : list event) (r : run A) : run A :=
  Run (tr ++ trace r) (result r).
Arguments after {A} tr !r /.

Definition bind {A B} (m : run A) (k : A -> run B) : run B :=
  match result m with
  | Returned a => after (trace m) (k a)
  | Raised e => Run (trace m) (Raised e)
  end.

Notation "'let*' x ':=' m 'in' k" := (bind m (fun x => k))
  (at level 10, x pattern, m at level 99, k at level 200, only parsing).
Notation "m ;; k" := (bind m (fun _ => k))
  (at level 100, k at level 200, only parsing, right associativity).

(** An expression that may raise. *)
Definition eval {A} (o : outcome A) : run A := Run [] o.

(** [await f(args)]: the call is recorded, its outcome is the run's. *)
Definition await {A} (ev : event) (o : outcome A) : run A := Run [ev] o.

(** The fetchers handed to [asyncio.gather] are used in two steps.  The
    call happens while the arguments of [gather] are evaluated, left to
    right: it returns an awaitable or raises.  The awaitable is run by
    [gather]: it ends in a value, in an exception, or cancelled. *)
Inductive awaitable (A : Type) : Type :=
| Ends (o : outcome A)
| EndsCancelled.
Arguments Ends {A} o.
Arguments EndsCancelled {A}.

Inductive called (A : Type) : Type :=
| Returns (aw : awaitable A)
| CallRaised (e : exn).
Arguments Returns {A} aw.
Arguments CallRaised {A} e.

(** A fetcher whose call returns an awaitable that ends in the outcome [o]
    is written as [o]. *)
Coercion Ends : outcome >-> awaitable.
Coercion Returns : awaitable >-> called.

(** The call of a fetcher in the argument list of [gather]: the call is
    recorded; it yields the awaitable or raises. *)
Definition call {A} (f : fetcher) (arg : string) (c : called A) : run (awaitable A) :=
  match c with
  | Returns aw => Run [CallFetch f arg] (Returned aw)
  | CallRaised e => Run [CallFetch f arg] (Raised e)
  end.

(** One branch of [asyncio.gather(..., return_exceptions=True)]: the value
    the awaitable returned, the exception it raised, stored as a value, or
    a [CancelledError] instance when it was cancelled. *)
Definition settle {A} (aw : awaitable (fetched A)) : fetched A :=
  match aw with
  | Ends (Returned v) => v
  | Ends (Raised e) => ExcInstance e
  | EndsCancelled => CancelledInstance
  end.

(** [logger.<lvl>(f"...")]: the f-string is formatted first, and only
    then is the record emitted. *)
Definition log (lvl : level) (m : outcome message) : run unit :=
  match m with
  | Returned msg => Run [LogRecord lvl msg] (Returned tt)
  | Raised e => Run [] (Raised e)
  end.

(** A block of statements either falls through with its bindings or
    executes [return b]. *)
Inductive flow (A : Type) : Type :=
| Next (a : A)
| Return (b : bool).
Arguments Next {A} a.
Arguments Return {A} b.

(** [try: body except Exception as e: handler]. *)
Definition try_except {A} (body : run A) (handler : exn -> run A) : run A :=
  match body with
  | Run tr (Returned a) => Run tr (Returned a)
  | Run tr (Raised e) => after tr (handler e)
  end.

(** Projections of a trace. *)
Definition is_front_run (ev : event) : bool :=
  match ev with CallFrontRun _ => true | _ => false end.

Definition is_score (ev : event) : bool :=
  match ev with CallScore _ => true | _ => false end.

Definition is_fetch (ev : event) : bool :=
  match ev with CallFetch _ _ => true | _ => false end.

Definition is_call (ev : event) : bool :=
  match ev with LogRecord _ _ => false | _ => true end.

Definition front_run_calls (tr : list event) : list event := List.filter is_front_run tr.
Definition score_calls (tr : list event) : list event := List.filter is_score tr.
Definition fetch_calls (tr : list event) : list event := List.filter is_fetch tr.
Definition collaborator_calls (tr : list event) : list event := List.filter is_call tr.

(** ** The aggressive strategy *)

Module AggressiveFrontRunStrategy.

Record t : Type := {
  _validate_transaction :
    transaction -> string -> option float64 -> outcome (bool * decoded * string);
  _calculate_risk_score :
    transaction -> string -> fetched float64 -> outcome (float64 * conditions);
  _front_run : transaction -> outcome bool;
  _get_price_change_24h : string -> outcome (fetched float64);
  config : configuration
}.

Definition min_value_eth (self : t) : float64 :=
  config_get (config self) "AGGRESSIVE_FRONT_RUN_MIN_VALUE_ETH" default_min_value_eth.

Definition risk_score_threshold (self : t) : float64 :=
  config_get (config self) "AGGRESSIVE_FRONT_RUN_RISK_SCORE_THRESHOLD" seventy.

Definition execute (self : t) (target_tx : transaction) : run bool :=
  log DEBUG (Returned Initiating);;
  let* (valid, decoded_tx, token_symbol) :=
    await (CallValidate target_tx "front_run" (Some (min_value_eth self)))
      (_validate_transaction self target_tx "front_run" (Some (min_value_eth self))) in
  if negb valid then ret false else
  let* price_change_24h :=
    await (CallFetch get_price_change_24h_func token_symbol)
      (_get_price_change_24h self token_symbol) in
  let* (risk_score, market_conditions) :=
    await (CallScore (RiskScore target_tx token_symbol price_change_24h))
      (_calculate_risk_score self target_tx token_symbol price_change_24h) in
  if py_ge risk_score (risk_score_threshold self) then
    log DEBUG (Returned (ExecutingAggressive risk_score));;
    await (CallFrontRun target_tx) (_front_run self target_tx)
  else ret false.

End AggressiveFrontRunStrategy.

(** ** The predictive strategy *)

Module PredictiveFrontRunStrategy.

Record t : Type := {
  _validate_transaction :
    transaction -> string -> option float64 -> outcome (bool * decoded * string);
  _calculate_opportunity_score :
    float64 -> float64 -> fetched conditions -> fetched float64 ->
    fetched (list float64) -> outcome float64;
  _front_run : transaction -> outcome bool;
  _predict_price_movement : string -> called (fetched float64);
  _get_real_time_price : string -> called (fetched float64);
  _check_market_conditions : string -> called (fetched conditions);
  _get_token_price_data : string -> string -> Z -> called (fetched (list float64));
  config : configuration
}.

Definition opportunity_score_threshold (self : t) : float64 :=
  config_get (config self) "FRONT_RUN_OPPORTUNITY_SCORE_THRESHOLD" sixty.

(** The [try] block.  The arguments of [gather] are evaluated left to
    right: the first two fetchers are called, then the transaction is
    indexed by ["to"], then the other two are called.  A call that raises
    and a missing key end in the [except] branch; [gather] itself collects
    every branch and does not raise. *)
Definition gather_market_data (self : t) (target_tx : transaction) (token_symbol : string)
  : run (flow (fetched float64 * fetched float64 * fetched conditions *
               fetched (list float64))) :=
  try_except
    (let* predicted :=
       call predict_price_movement_func token_symbol
         (_predict_price_movement self token_symbol) in
     let* current :=
       call get_real_time_price_func token_symbol
         (_get_real_time_price self token_symbol) in
     let* to := eval (py_getitem target_tx "to") in
     let* conditions :=
       call check_market_conditions_func to (_check_market_conditions self to) in
     let* historical :=
       call get_token_price_data_func token_symbol
         (_get_token_price_data self token_symbol "historical" 1) in
     let predicted_price := settle predicted in
     let current_price := settle current in
     let market_conditions := settle conditions in
     let historical_prices := settle historical in
     if is_exception predicted_price || is_exception current_price
        || is_exception market_conditions || is_exception historical_prices
     then log WARNING (Returned GatherIncomplete);; ret (Return false)
     else if is_none current_price || is_none predicted_price
     then log DEBUG (Returned MissingPriceData);; ret (Return false)
     else ret (Next (predicted_price, current_price, market_conditions,
                     historical_prices)))
    (fun e => log ERROR (Returned (GatherError e));; ret (Return false)).

(** The f-string of the analysis record. *)
Definition analysis_message (np : numpy) (token_symbol : string)
    (current_price predicted_price : fetched float64)
    (historical_prices : fetched (list float64)) (opportunity_score : float64)
    (market_conditions : fetched conditions) : outcome message :=
  match fmt_f current_price with
  | Raised e => Raised e
  | Returned c =>
  match fmt_f predicted_price with
  | Raised e => Raised e
  | Returned p =>
  match price_change_pct predicted_price current_price with
  | Raised e => Raised e
  | Returned change =>
  match volatility_ratio np historical_prices with
  | Raised e => Raised e
  | Returned vol =>
      Returned (PredictiveAnalysis token_symbol c p change vol opportunity_score
                  market_conditions)
  end end end end.

Definition executing_message (token_symbol : string)
    (current_price predicted_price : fetched float64) (opportunity_score : float64)
  : outcome message :=
  match price_change_pct predicted_price current_price with
  | Raised e => Raised e
  | Returned change => Returned (ExecutingPredictive token_symbol opportunity_score change)
  end.

Definition execute (np : numpy) (self : t) (target_tx : transaction) : run bool :=
  log DEBUG (Returned Initiating);;
  let* (valid, decoded_tx, token_symbol) :=
    await (CallValidate target_tx "front_run" None)
      (_validate_transaction self target_tx "front_run" None) in
  if negb valid then ret false else
  let* data := gather_market_data self target_tx token_symbol in
  match data with
  | Return b => ret b
  | Next (predicted_price, current_price, market_conditions, historical_prices) =>
      let* price_change := eval (price_change_pct predicted_price current_price) in
      let* volatility := eval (volatility_ratio np historical_prices) in
      let* opportunity_score :=
        await (CallScore (OpportunityScore price_change volatility market_conditions
                            current_price historical_prices))
          (_calculate_opportunity_score self price_change volatility market_conditions
             current_price historical_prices) in
      log DEBUG (analysis_message np token_symbol current_price predicted_price
                   historical_prices opportunity_score market_conditions);;
      if py_ge opportunity_score (opportunity_score_threshold self) then
        log DEBUG (executing_message token_symbol current_price predicted_price
                     opportunity_score);;
        await (CallFrontRun target_tx) (_front_run self target_tx)
      else
        log DEBUG (Returned (BelowThreshold opportunity_score));;
        ret false
  end.

End PredictiveFrontRunStrategy.

(** ** The volatility strategy *)

Module VolatilityFrontRunStrategy.

Record t : Type := {
  _validate_transaction :
    transaction -> string -> option float64 -> outcome (bool * decoded * string);
  _calculate_volatility_score :
    fetched (list float64) -> fetched float64 -> fetched conditions -> outcome float64;
  _front_run : transaction -> outcome bool;
  _check_market_conditions : string -> called (fetched conditions);
  _get_real_time_price : string -> called (fetched float64);
  _get_token_price_data : string -> string -> Z -> called (fetched (list float64));
  config : configuration
}.

Definition volatility_score_threshold (self : t) : float64 :=
  config_get (config self) "VOLATILITY_FRONT_RUN_SCORE_THRESHOLD" seventy_five.

(** The [try] block: the transaction is indexed by ["to"] for the first
    argument of [gather], before any fetcher is called. *)
Definition gather_market_data (self : t) (target_tx : transaction) (token_symbol : string)
  : run (flow (fetched conditions * fetched float64 * fetched (list float64))) :=
  try_except
    (let* to := eval (py_getitem target_tx "to") in
     let* conditions :=
       call check_market_conditions_func to (_check_market_conditions self to) in
     let* current :=
       call get_real_time_price_func token_symbol
         (_get_real_time_price self token_symbol) in
     let* historical :=
       call get_token_price_data_func token_symbol
         (_get_token_price_data self token_symbol "historical" 1) in
     let market_conditions := settle conditions in
     let current_price := settle current in
     let historical_prices := settle historical in
     if is_exception market_conditions || is_exception current_price
        || is_exception historical_prices
     then log WARNING (Returned GatherIncomplete);; ret (Return false)
     else ret (Next (market_conditions, current_price, historical_prices)))
    (fun e => log ERROR (Returned (GatherError e));; ret (Return false)).

(** The f-string of the analysis record: it formats
    [min(historical_prices)] and [max(historical_prices)]. *)
Definition analysis_message (token_symbol : string) (volatility_score : float64)
    (current_price : fetched float64) (historical_prices : fetched (list float64))
    (market_conditions : fetched conditions) : outcome message :=
  match py_min historical_prices with
  | Raised e => Raised e
  | Returned lo =>
  match py_max historical_prices with
  | Raised e => Raised e
  | Returned hi =>
      Returned (VolatilityAnalysis token_symbol volatility_score current_price lo hi
                  market_conditions)
  end end.

Definition execute (self : t) (target_tx : transaction) : run bool :=
  log DEBUG (Returned Initiating);;
  let* (valid, decoded_tx, token_symbol) :=
    await (CallValidate target_tx "front_run" None)
      (_validate_transaction self target_tx "front_run" None) in
  if negb valid then ret false else
  let* results := gather_market_data self target_tx token_symbol in
  match results with
  | Return b => ret b
  | Next (market_conditions, current_price, historical_prices) =>
      let* volatility_score :=
        await (CallScore (VolatilityScore historical_prices current_price
                            market_conditions))
          (_calculate_volatility_score self historical_prices current_price
             market_conditions) in
      log DEBUG (analysis_message token_symbol volatility_score current_price
                   historical_prices market_conditions);;
      if py_ge volatility_score (volatility_score_threshold self) then
        log DEBUG (Returned (Executing token_symbol volatility_score));;
        await (CallFrontRun target_tx) (_front_run self target_tx)
      else
        log DEBUG (Returned (BelowThreshold volatility_score));;
        ret false
  end.

End VolatilityFrontRunStrategy.

(** ** The advanced strategy *)

Module AdvancedFrontRunStrategy.

Record t : Type := {
  _validate_transaction :
    transaction -> string -> option float64 -> outcome (bool * decoded * string);
  _calculate_risk_score :
    transaction -> string -> fetched float64 -> outcome (float64 * conditions);
  _front_run : transaction -> outcome bool;
  _predict_price_movement : string -> called (fetched float64);
  _check_market_conditions : string -> called (fetched conditions);
  _get_real_time_price : string -> called (fetched float64);
  _get_token_volume : string -> called (fetched float64);
  config : configuration
}.

Definition risk_score_threshold (self : t) : float64 :=
  config_get (config self) "ADVANCED_FRONT_RUN_RISK_SCORE_THRESHOLD" seventy.

(** The [try] block: the first fetcher is called, then the transaction is
    indexed by ["to"], then the other three are called. *)
Definition gather_market_data (self : t) (target_tx : transaction) (token_symbol : string)
  : run (flow (fetched float64 * fetched conditions * fetched float64 *
               fetched float64)) :=
  try_except
    (let* predicted :=
       call predict_price_movement_func token_symbol
         (_predict_price_movement self token_symbol) in
     let* to := eval (py_getitem target_tx "to") in
     let* conditions :=
       call check_market_conditions_func to (_check_market_conditions self to) in
     let* current :=
       call get_real_time_price_func token_symbol
         (_get_real_time_price self token_symbol) in
     let* traded :=
       call get_token_volume_func token_symbol (_get_token_volume self token_symbol) in
     let predicted_price := settle predicted in
     let market_conditions := settle conditions in
     let current_price := settle current in
     let volume := settle traded in
     if is_exception predicted_price || is_exception market_conditions
        || is_exception current_price || is_exception volume
     then log WARNING (Returned GatherIncomplete);; ret (Return false)
     else if is_none current_price || is_none predicted_price
     then log DEBUG (Returned MissingPriceData);; ret (Return false)
     else ret (Next (predicted_price, market_conditions, current_price, volume)))
    (fun e => log ERROR (Returned (GatherError e));; ret (Return false)).

(** The three readings of the fetched market conditions. *)
Definition is_bullish (market_conditions : fetched conditions) : outcome bool :=
  dict_get market_conditions "bullish_trend" false.

Definition is_volatile (market_conditions : fetched conditions) : outcome bool :=
  dict_get market_conditions "high_volatility" false.

Definition has_liquidity (market_conditions : fetched conditions) : outcome bool :=
  match dict_get market_conditions "low_liquidity" true with
  | Returned low => Returned (negb low)
  | Raised e => Raised e
  end.

(** The f-string of the analysis record: the volume is formatted with
    [,.2f]. *)
Definition analysis_message (token_symbol : string) (price_increase : float64)
    (bullish volatile liquid : bool) (volume : fetched float64) (risk_score : float64)
  : outcome message :=
  match fmt_f volume with
  | Raised e => Raised e
  | Returned v =>
      Returned (AdvancedAnalysis token_symbol price_increase bullish volatile liquid v
                  risk_score)
  end.

Definition execute (self : t) (target_tx : transaction) : run bool :=
  log DEBUG (Returned Initiating);;
  let* (valid, decoded_tx, token_symbol) :=
    await (CallValidate target_tx "front_run" None)
      (_validate_transaction self target_tx "front_run" None) in
  if negb valid then ret false else
  let* analysis_results := gather_market_data self target_tx token_symbol in
  match analysis_results with
  | Return b => ret b
  | Next (predicted_price, market_conditions, current_price, volume) =>
      let* price_increase := eval (price_change_pct predicted_price current_price) in
      let* bullish := eval (is_bullish market_conditions) in
      let* volatile := eval (is_volatile market_conditions) in
      let* liquid := eval (has_liquidity market_conditions) in
      let* (risk_score, market_conditions') :=
        await (CallScore (RiskScore target_tx token_symbol (Value price_increase)))
          (_calculate_risk_score self target_tx token_symbol (Value price_increase)) in
      log DEBUG (analysis_message token_symbol price_increase bullish volatile liquid
                   volume risk_score);;
      if py_ge risk_score (risk_score_threshold self) then
        log DEBUG (Returned (Executing token_symbol risk_score));;
        await (CallFrontRun target_tx) (_front_run self target_tx)
      else
        log DEBUG (Returned (BelowThreshold risk_score));;
        ret false
  end.

End AdvancedFrontRunStrategy.

(** ** The four variants behind one interface *)

Inductive strategy : Type :=
| Aggressive (self : AggressiveFrontRunStrategy.t)
| Predictive (self : PredictiveFrontRunStrategy.t)
| Volatility (self : VolatilityFrontRunStrategy.t)
| Advanced (self : AdvancedFrontRunStrategy.t).

Definition execute (np : numpy) (s : strategy) (target_tx : transaction) : run bool :=
  match s with
  | Aggressive self => AggressiveFrontRunStrategy.execute self target_tx
  | Predictive self => PredictiveFrontRunStrategy.execute np self target_tx
  | Volatility self => VolatilityFrontRunStrategy.execute self target_tx
  | Advanced self => AdvancedFrontRunStrategy.execute self target_tx
  end.

(** The minimum value a variant hands to the validator: only the
    aggressive one supplies it. *)
Definition min_value (s : strategy) : option float64 :=
  match s with
  | Aggressive self => Some (AggressiveFrontRunStrategy.min_value_eth self)
  | _ => None
  end.

(** The validation call a variant makes on a transaction. *)
Definition validation (s : strategy) (target_tx : transaction)
  : outcome (bool * decoded * string) :=
  match s with
  | Aggressive self =>
      AggressiveFrontRunStrategy._validate_transaction self target_tx "front_run"
        (min_value s)
  | Predictive self =>
      PredictiveFrontRunStrategy._validate_transaction self target_tx "front_run"
        (min_value s)
  | Volatility self =>
      VolatilityFrontRunStrategy._validate_transaction self target_tx "front_run"
        (min_value s)
  | Advanced self =>
      AdvancedFrontRunStrategy._validate_transaction self target_tx "front_run"
        (min_value s)
  end.

(** The front-run collaborator of a variant. *)
Definition front_run (s : strategy) (target_tx : transaction) : outcome bool :=
  match s with
  | Aggressive self => AggressiveFrontRunStrategy._front_run self target_tx
  | Predictive self => PredictiveFrontRunStrategy._front_run self target_tx
  | Volatility self => VolatilityFrontRunStrategy._front_run self target_tx
  | Advanced self => AdvancedFrontRunStrategy._front_run self target_tx
  end.

(** The score reducer of a variant raises [e] on the recorded call [c]. *)
Definition reducer_raises (s : strategy) (c : score_call) (e : exn) : Prop :=
  match s, c with
  | Aggressive self, RiskScore tx sym pc =>
      AggressiveFrontRunStrategy._calculate_risk_score self tx sym pc = Raised e
  | Predictive self, OpportunityScore pc vol mc cur hs =>
      PredictiveFrontRunStrategy._calculate_opportunity_score self pc vol mc cur hs
      = Raised e
  | Volatility self, VolatilityScore hs cur mc =>
      VolatilityFrontRunStrategy._calculate_volatility_score self hs cur mc = Raised e
  | Advanced self, RiskScore tx sym pc =>
      AdvancedFrontRunStrategy._calculate_risk_score self tx sym pc = Raised e
  | _, _ => False
  end.

(** The configured threshold of a variant. *)
Definition threshold (s : strategy) : float64 :=
  match s with
  | Aggressive self => AggressiveFrontRunStrategy.risk_score_threshold self
  | Predictive self => PredictiveFrontRunStrategy.opportunity_score_threshold self
  | Volatility self => VolatilityFrontRunStrategy.volatility_score_threshold self
  | Advanced self => AdvancedFrontRunStrategy.risk_score_threshold self
  end.

(** What the variable of a gathered fetcher holds after [gather]; for a
    fetcher whose call already raised, the exception it raised. *)
Definition delivered {A} (c : called (fetched A)) : fetched A :=
  match c with
  | Returns aw => settle aw
  | CallRaised e => ExcInstance e
  end.

(** A failure inside the gather step of a variant: the transaction has no
    [to] field, or one of the gathered fetchers raised, when called or when
    awaited, or handed back an exception instance.  A cancelled fetcher is
    no such failure.  The aggressive variant has no gather step. *)
Definition gather_failed (s : strategy) (target_tx : transaction) (sym : string) : bool :=
  match s with
  | Aggressive _ => false
  | Predictive self =>
      match target_tx !! "to" with
      | None => true
      | Some to =>
          is_exception
            (delivered (PredictiveFrontRunStrategy._predict_price_movement self sym))
          || is_exception
               (delivered (PredictiveFrontRunStrategy._get_real_time_price self sym))
          || is_exception
               (delivered (PredictiveFrontRunStrategy._check_market_conditions self to))
          || is_exception
               (delivered (PredictiveFrontRunStrategy._get_token_price_data self sym
                             "historical" 1))
      end
  | Volatility self =>
      match target_tx !! "to" with
      | None => true
      | Some to =>
          is_exception
            (delivered (VolatilityFrontRunStrategy._check_market_conditions self to))
          || is_exception
               (delivered (VolatilityFrontRunStrategy._get_real_time_price self sym))
          || is_exception
               (delivered (VolatilityFrontRunStrategy._get_token_price_data self sym
                             "historical" 1))
      end
  | Advanced self =>
      match target_tx !! "to" with
      | None => true
      | Some to =>
          is_exception
            (delivered (AdvancedFrontRunStrategy._predict_price_movement self sym))
          || is_exception
               (delivered (AdvancedFrontRunStrategy._check_market_conditions self to))
          || is_exception
               (delivered (AdvancedFrontRunStrategy._get_real_time_price self sym))
          || is_exception (delivered (AdvancedFrontRunStrategy._get_token_volume self sym))
      end
  end.

(** The fetched signals let every derived quantity and every log record be
    computed: the fetcher of the aggressive variant returns, a fetched
    current price that enters a division is not zero, the historical
    series of the volatility variant is neither null nor empty, the
    market conditions and the volume of the advanced variant are not
    null, and no signal that enters a computation or a format is a
    cancelled fetcher's [CancelledError]. *)
Definition signals_usable (s : strategy) (target_tx : transaction) (sym : string) : Prop :=
  match s with
  | Aggressive self =>
      exists v, AggressiveFrontRunStrategy._get_price_change_24h self sym = Returned v
  | Predictive self =>
      (forall c,
         delivered (PredictiveFrontRunStrategy._get_real_time_price self sym) = Value c ->
         py_eq c zero = false) /\
      is_cancelled (delivered (PredictiveFrontRunStrategy._get_real_time_price self sym))
      = false /\
      is_cancelled (delivered (PredictiveFrontRunStrategy._predict_price_movement self sym))
      = false /\
      is_cancelled
        (delivered (PredictiveFrontRunStrategy._get_token_price_data self sym
                      "historical" 1)) = false
  | Volatility self =>
      truthy (delivered (VolatilityFrontRunStrategy._get_token_price_data self sym
                           "historical" 1)) = true /\
      is_cancelled
        (delivered (VolatilityFrontRunStrategy._get_token_price_data self sym
                      "historical" 1)) = false
  | Advanced self =>
      (forall c,
         delivered (AdvancedFrontRunStrategy._get_real_time_price self sym) = Value c ->
         py_eq c zero = false) /\
      (forall to,
         target_tx !! "to" = Some to ->
         is_none (delivered (AdvancedFrontRunStrategy._check_market_conditions self to))
         = false /\
         is_cancelled
           (delivered (AdvancedFrontRunStrategy._check_market_conditions self to))
         = false) /\
      is_none (delivered (AdvancedFrontRunStrategy._get_token_volume self sym)) = false /\
      is_cancelled (delivered (AdvancedFrontRunStrategy._get_token_volume self sym))
      = false /\
      is_cancelled (delivered (AdvancedFrontRunStrategy._get_real_time_price self sym))
      = false /\
      is_cancelled (delivered (AdvancedFrontRunStrategy._predict_price_movement self sym))
      = false
  end.

(** The exception [e] comes out of one of the three collaborators that no
    variant guards: the validator, the score reducer or the executor. *)
Definition unguarded_failure (s : strategy) (target_tx : transaction) (tr : list event)
    (e : exn) : Prop :=
  validation s target_tx = Raised e
  \/ (exists c, In (CallScore c) tr /\ reducer_raises s c e)
  \/ (In (CallFrontRun target_tx) tr /\ front_run s target_tx = Raised e).

(** The predictive and the advanced variant fetch the predicted price [p]
    and the current price [c], and their other two fetchers return values
    too. *)
Definition fetches_prices (s : strategy) (to sym : string) (p c : float64) : Prop :=
  match s with
  | Predictive self =>
      PredictiveFrontRunStrategy._predict_price_movement self sym = Returned (Value p) /\
      PredictiveFrontRunStrategy._get_real_time_price self sym = Returned (Value c) /\
      (exists m, PredictiveFrontRunStrategy._check_market_conditions self to
                 = Returned (Value m)) /\
      (exists l, PredictiveFrontRunStrategy._get_token_price_data self sym "historical" 1
                 = Returned (Value l))
  | Advanced self =>
      AdvancedFrontRunStrategy._predict_price_movement self sym = Returned (Value p) /\
      AdvancedFrontRunStrategy._get_real_time_price self sym = Returned (Value c) /\
      (exists m, AdvancedFrontRunStrategy._check_market_conditions self to
                 = Returned (Value m)) /\
      (exists v, AdvancedFrontRunStrategy._get_token_volume self sym = Returned (Value v))
  | _ => False
  end.

(** What the gate does with a score: at or above the threshold the
    executor is called once on the target transaction and its outcome is
    the outcome of the run, below it the run returns [false]. *)
Definition gated (score thr : float64) (target_tx : transaction)
    (executor : transaction -> outcome bool) (r : run bool) : Prop :=
  result r = (if py_ge score thr then executor target_tx else Returned false) /\
  front_run_calls (trace r)
  = (if py_ge score thr then [CallFrontRun target_tx] else []).

(** ** The collaborators of the usage example

    The placeholder classes of [example_usage.py].  The strategies are
    given [config.__dict__] of a [MockConfiguration] instance; its
    attributes are class attributes, so that dictionary is empty and every
    threshold takes its default. *)

#[local] Set Warnings "-inexact-float".

Definition five : float64 := Eval vm_compute in f64 5%float.
Definition eighty : float64 := Eval vm_compute in f64 80%float.
Definition eighty_five : float64 := Eval vm_compute in f64 85%float.
Definition fifty : float64 := Eval vm_compute in f64 50%float.
Definition ten : float64 := Eval vm_compute in f64 10%float.
Definition million : float64 := Eval vm_compute in f64 1000000%float.
Definition ten_and_a_half : float64 := Eval vm_compute in f64 10.5%float.

Module MockTransactionCore.

Definition _validate_transaction (target_tx : transaction) (strategy_type : string)
    (min_value : option float64) : outcome (bool * decoded * string) :=
  Returned (true, ∅, "MOCK_TOKEN").

Definition _calculate_risk_score (target_tx : transaction) (token_symbol : string)
    (price_change : fetched float64) : outcome (float64 * conditions) :=
  Returned (eighty, {[ "bullish_trend" := true ]}).

Definition _calculate_opportunity_score (price_change volatility : float64)
    (market_conditions : fetched conditions) (current_price : fetched float64)
    (historical_prices : fetched (list float64)) : outcome float64 :=
  Returned seventy.

Definition _calculate_volatility_score (historical_prices : fetched (list float64))
    (current_price : fetched float64) (market_conditions : fetched conditions)
  : outcome float64 :=
  Returned eighty_five.

Definition front_run (target_tx : transaction) : outcome bool := Returned true.

End MockTransactionCore.

Module MockAPIConfig.

Definition get_price_change_24h (token_symbol : string) : outcome (fetched float64) :=
  Returned (Value five).

Definition get_real_time_price (token_symbol : string) : called (fetched float64) :=
  Returned (Value ten).

Definition historical : list float64 :=
  Eval vm_compute in [f64 9.5%float; f64 9.8%float; f64 10.1%float; f64 9.9%float].

Definition get_token_price_data (token_symbol data_type : string) (timeframe : Z)
  : called (fetched (list float64)) :=
  Returned (Value historical).

Definition get_token_volume (token_symbol : string) : called (fetched float64) :=
  Returned (Value million).

End MockAPIConfig.

Module MockMarketMonitor.

Definition predict_price_movement (token_symbol : string) : called (fetched float64) :=
  Returned (Value ten_and_a_half).

Definition check_market_conditions (contract_address : string)
  : called (fetched conditions) :=
  Returned (Value {[ "bullish_trend" := true; "high_volatility" := true;
                     "low_liquidity" := false ]}).

End MockMarketMonitor.

Definition MockConfiguration : configuration := ∅.

Definition example_transaction : transaction :=
  {[ "to" := "0x7a250d5630B4cF539739dF2C5dAcb4c659F2488D";
     "data" := "0x...";
     "value" := "0.01" ]}.

Definition aggressive_strategy : AggressiveFrontRunStrategy.t := {|
  AggressiveFrontRunStrategy._validate_transaction := MockTransactionCore._validate_transaction;
  AggressiveFrontRunStrategy._calculate_risk_score := MockTransactionCore._calculate_risk_score;
  AggressiveFrontRunStrategy._front_run := MockTransactionCore.front_run;
  AggressiveFrontRunStrategy._get_price_change_24h := MockAPIConfig.get_price_change_24h;
  AggressiveFrontRunStrategy.config := MockConfiguration
|}.

Definition predictive_strategy : PredictiveFrontRunStrategy.t := {|
  PredictiveFrontRunStrategy._validate_transaction := MockTransactionCore._validate_transaction;
  PredictiveFrontRunStrategy._calculate_opportunity_score :=
    MockTransactionCore._calculate_opportunity_score;
  PredictiveFrontRunStrategy._front_run := MockTransactionCore.front_run;
  PredictiveFrontRunStrategy._predict_price_movement :=
    MockMarketMonitor.predict_price_movement;
  PredictiveFrontRunStrategy._get_real_time_price := MockAPIConfig.get_real_time_price;
  PredictiveFrontRunStrategy._check_market_conditions :=
    MockMarketMonitor.check_market_conditions;
  PredictiveFrontRunStrategy._get_token_price_data := MockAPIConfig.get_token_price_data;
  PredictiveFrontRunStrategy.config := MockConfiguration
|}.

Definition volatility_strategy : VolatilityFrontRunStrategy.t := {|
  VolatilityFrontRunStrategy._validate_transaction := MockTransactionCore._validate_transaction;
  VolatilityFrontRunStrategy._calculate_volatility_score :=
    MockTransactionCore._calculate_volatility_score;
  VolatilityFrontRunStrategy._front_run := MockTransactionCore.front_run;
  VolatilityFrontRunStrategy._check_market_conditions :=
    MockMarketMonitor.check_market_conditions;
  VolatilityFrontRunStrategy._get_real_time_price := MockAPIConfig.get_real_time_price;
  VolatilityFrontRunStrategy._get_token_price_data := MockAPIConfig.get_token_price_data;
  VolatilityFrontRunStrategy.config := MockConfiguration
|}.

Definition advanced_strategy : AdvancedFrontRunStrategy.t := {|
  AdvancedFrontRunStrategy._validate_transaction := MockTransactionCore._validate_transaction;
  AdvancedFrontRunStrategy._calculate_risk_score := MockTransactionCore._calculate_risk_score;
  AdvancedFrontRunStrategy._front_run := MockTransactionCore.front_run;
  AdvancedFrontRunStrategy._predict_price_movement :=
    MockMarketMonitor.predict_price_movement;
  AdvancedFrontRunStrategy._check_market_conditions :=
    MockMarketMonitor.check_market_conditions;
  AdvancedFrontRunStrategy._get_real_time_price := MockAPIConfig.get_real_time_price;
  AdvancedFrontRunStrategy._get_token_volume := MockAPIConfig.get_token_volume;
  AdvancedFrontRunStrategy.config := MockConfiguration
|}.

(** A NumPy stand-in for the examples: the mean is the left-to-right sum
    over the length, the standard deviation the root of the mean squared
    deviation. *)
Definition float_of_nat (n : nat) : float64 :=
  binary_normalize FloatOps.prec FloatOps.emax (Z.of_nat n) 0 false.

Definition mean_of (l : list float64) : float64 :=
  fdiv (fold_left fadd l zero) (float_of_nat (length l)).

Definition std_of (l : list float64) : float64 :=
  let m := mean_of l in
  fsqrt (mean_of (map (fun x => fmul (fsub x m) (fsub x m)) l)).

Definition np_example : numpy := {| std := std_of; mean := mean_of |}.

(** ** Variations of the example collaborators *)

(** A validator that rejects the transaction. *)
Definition rejecting_validator (target_tx : transaction) (strategy_type : string)
    (min_value : option float64) : outcome (bool * decoded * string) :=
  Returned (false, ∅, "").

Definition volatility_rejecting : VolatilityFrontRunStrategy.t := {|
  VolatilityFrontRunStrategy._validate_transaction := rejecting_validator;
  VolatilityFrontRunStrategy._calculate_volatility_score :=
    MockTransactionCore._calculate_volatility_score;
  VolatilityFrontRunStrategy._front_run := MockTransactionCore.front_run;
  VolatilityFrontRunStrategy._check_market_conditions :=
    MockMarketMonitor.check_market_conditions;
  VolatilityFrontRunStrategy._get_real_time_price := MockAPIConfig.get_real_time_price;
  VolatilityFrontRunStrategy._get_token_price_data := MockAPIConfig.get_token_price_data;
  VolatilityFrontRunStrategy.config := MockConfiguration
|}.

(** An aggressive strategy around a given 24h price-change fetcher. *)
Definition aggressive_with (get_price_change_24h : string -> outcome (fetched float64))
  : AggressiveFrontRunStrategy.t := {|
  AggressiveFrontRunStrategy._validate_transaction := MockTransactionCore._validate_transaction;
  AggressiveFrontRunStrategy._calculate_risk_score := MockTransactionCore._calculate_risk_score;
  AggressiveFrontRunStrategy._front_run := MockTransactionCore.front_run;
  AggressiveFrontRunStrategy._get_price_change_24h := get_price_change_24h;
  AggressiveFrontRunStrategy.config := MockConfiguration
|}.

(** The price feed is down. *)
Definition aggressive_failing_fetcher : AggressiveFrontRunStrategy.t :=
  aggressive_with (fun _ => Raised (CollaboratorError "price feed down")).

(** A predictive strategy around a given current-price fetcher and a given
    executor. *)
Definition predictive_with (get_real_time_price : string -> called (fetched float64))
    (front_run : transaction -> outcome bool) : PredictiveFrontRunStrategy.t := {|
  PredictiveFrontRunStrategy._validate_transaction := MockTransactionCore._validate_transaction;
  PredictiveFrontRunStrategy._calculate_opportunity_score :=
    MockTransactionCore._calculate_opportunity_score;
  PredictiveFrontRunStrategy._front_run := front_run;
  PredictiveFrontRunStrategy._predict_price_movement :=
    MockMarketMonitor.predict_price_movement;
  PredictiveFrontRunStrategy._get_real_time_price := get_real_time_price;
  PredictiveFrontRunStrategy._check_market_conditions :=
    MockMarketMonitor.check_market_conditions;
  PredictiveFrontRunStrategy._get_token_price_data := MockAPIConfig.get_token_price_data;
  PredictiveFrontRunStrategy.config := MockConfiguration
|}.

(** The current price is quoted as 0.0. *)
Definition predictive_zero_price : PredictiveFrontRunStrategy.t :=
  predictive_with (fun _ => Returned (Value zero)) MockTransactionCore.front_run.

(** The executor fails to broadcast. *)
Definition predictive_failing_executor : PredictiveFrontRunStrategy.t :=
  predictive_with MockAPIConfig.get_real_time_price
    (fun _ => Raised (CollaboratorError "broadcast failed")).

(** A volatility strategy around a given current-price fetcher, a given
    historical-price fetcher and a reducer that returns a given score. *)
Definition volatility_with (get_real_time_price : string -> called (fetched float64))
    (get_token_price_data : string -> string -> Z -> called (fetched (list float64)))
    (score : float64) : VolatilityFrontRunStrategy.t := {|
  VolatilityFrontRunStrategy._validate_transaction := MockTransactionCore._validate_transaction;
  VolatilityFrontRunStrategy._calculate_volatility_score := fun _ _ _ => Returned score;
  VolatilityFrontRunStrategy._front_run := MockTransactionCore.front_run;
  VolatilityFrontRunStrategy._check_market_conditions :=
    MockMarketMonitor.check_market_conditions;
  VolatilityFrontRunStrategy._get_real_time_price := get_real_time_price;
  VolatilityFrontRunStrategy._get_token_price_data := get_token_price_data;
  VolatilityFrontRunStrategy.config := MockConfiguration
|}.

(** No historical price is known yet; the reducer returns 85, or 50. *)
Definition volatility_empty_history : VolatilityFrontRunStrategy.t :=
  volatility_with MockAPIConfig.get_real_time_price (fun _ _ _ => Returned (Value []))
    eighty_five.

Definition volatility_empty_history_low_score : VolatilityFrontRunStrategy.t :=
  volatility_with MockAPIConfig.get_real_time_price (fun _ _ _ => Returned (Value []))
    fifty.

(** The current price is missing. *)
Definition volatility_null_price : VolatilityFrontRunStrategy.t :=
  volatility_with (fun _ => Returned PyNone) MockAPIConfig.get_token_price_data
    eighty_five.

(** An advanced strategy around a given market-conditions fetcher. *)
Definition advanced_with (check_market_conditions : string -> called (fetched conditions))
  : AdvancedFrontRunStrategy.t := {|
  AdvancedFrontRunStrategy._validate_transaction := MockTransactionCore._validate_transaction;
  AdvancedFrontRunStrategy._calculate_risk_score := MockTransactionCore._calculate_risk_score;
  AdvancedFrontRunStrategy._front_run := MockTransactionCore.front_run;
  AdvancedFrontRunStrategy._predict_price_movement :=
    MockMarketMonitor.predict_price_movement;
  AdvancedFrontRunStrategy._check_market_conditions := check_market_conditions;
  AdvancedFrontRunStrategy._get_real_time_price := MockAPIConfig.get_real_time_price;
  AdvancedFrontRunStrategy._get_token_volume := MockAPIConfig.get_token_volume;
  AdvancedFrontRunStrategy.config := MockConfiguration
|}.

(** The market conditions carry no [low_liquidity] flag. *)
Definition conditions_without_liquidity : conditions :=
  {[ "bullish_trend" := true; "high_volatility" := true ]}.

Definition advanced_missing_liquidity : AdvancedFrontRunStrategy.t :=
  advanced_with (fun _ => Returned (Value conditions_without_liquidity)).

(** The float the example prices give as percentage change:
    5.000000000000004, five units in the last place above 5.0. *)
Definition five_plus_5ulp : float64 := Eval vm_compute in f64 0x1.4000000000005p+2%float.

(** ** Further projections of a run, and variations of a strategy *)

Definition is_validate (ev : event) : bool :=
  match ev with CallValidate _ _ _ => true | _ => false end.

Definition is_log (ev : event) : bool :=
  match ev with LogRecord _ _ => true | _ => false end.

Definition validate_calls (tr : list event) : list event := List.filter is_validate tr.
Definition log_records (tr : list event) : list event := List.filter is_log tr.

(** The score reducer of a variant returns [score] on the recorded call
    [c]. *)
Definition reducer_returns (s : strategy) (c : score_call) (score : float64) : Prop :=
  match s, c with
  | Aggressive self, RiskScore tx sym pc =>
      exists m, AggressiveFrontRunStrategy._calculate_risk_score self tx sym pc
                = Returned (score, m)
  | Predictive self, OpportunityScore pc vol mc cur hs =>
      PredictiveFrontRunStrategy._calculate_opportunity_score self pc vol mc cur hs
      = Returned score
  | Volatility self, VolatilityScore hs cur mc =>
      VolatilityFrontRunStrategy._calculate_volatility_score self hs cur mc
      = Returned score
  | Advanced self, RiskScore tx sym pc =>
      exists m, AdvancedFrontRunStrategy._calculate_risk_score self tx sym pc
                = Returned (score, m)
  | _, _ => False
  end.

(** The exception a fetcher raises when it is called, if it does. *)
Definition call_error {A} (c : called A) : option exn :=
  match c with
  | Returns _ => None
  | CallRaised e => Some e
  end.

(** One argument of the [asyncio.gather] call: the fetcher calls its
    evaluation records and the exception it raises, if any. *)
Definition argument : Type := list event * option exn.

Definition fetcher_call {A} (f : fetcher) (arg : string) (c : called A) : argument :=
  ([CallFetch f arg], call_error c).

(** The arguments of the [asyncio.gather] call of a variant, in the order
    Python evaluates them: the fetcher calls from left to right, the
    subscription [target_tx["to"]] right before the call it is an argument
    of, and nothing after it when the key is missing. *)
Definition arguments (s : strategy) (target_tx : transaction) (sym : string)
  : list argument :=
  match s with
  | Aggressive _ => []
  | Predictive self =>
      [fetcher_call predict_price_movement_func sym
         (PredictiveFrontRunStrategy._predict_price_movement self sym);
       fetcher_call get_real_time_price_func sym
         (PredictiveFrontRunStrategy._get_real_time_price self sym)]
      ++ match target_tx !! "to" with
         | None => [([], Some (KeyError "to"))]
         | Some to =>
             [fetcher_call check_market_conditions_func to
                (PredictiveFrontRunStrategy._check_market_conditions self to);
              fetcher_call get_token_price_data_func sym
                (PredictiveFrontRunStrategy._get_token_price_data self sym "historical" 1)]
         end
  | Volatility self =>
      match target_tx !! "to" with
      | None => [([], Some (KeyError "to"))]
      | Some to =>
          [fetcher_call check_market_conditions_func to
             (VolatilityFrontRunStrategy._check_market_conditions self to);
           fetcher_call get_real_time_price_func sym
             (VolatilityFrontRunStrategy._get_real_time_price self sym);
           fetcher_call get_token_price_data_func sym
             (VolatilityFrontRunStrategy._get_token_price_data self sym "historical" 1)]
      end
  | Advanced self =>
      fetcher_call predict_price_movement_func sym
        (AdvancedFrontRunStrategy._predict_price_movement self sym)
      :: match target_tx !! "to" with
         | None => [([], Some (KeyError "to"))]
         | Some to =>
             [fetcher_call check_market_conditions_func to
                (AdvancedFrontRunStrategy._check_market_conditions self to);
              fetcher_call get_real_time_price_func sym
                (AdvancedFrontRunStrategy._get_real_time_price self sym);
              fetcher_call get_token_volume_func sym
                (AdvancedFrontRunStrategy._get_token_volume self sym)]
         end
  end.

(** The fetcher calls made up to and including the first argument that
    raises, and the exception of that argument. *)
Fixpoint calls_until_failure (args : list argument) : list event :=
  match args with
  | [] => []
  | (evs, None) :: rest => evs ++ calls_until_failure rest
  | (evs, Some _) :: _ => evs
  end.

Fixpoint first_failure (args : list argument) : option exn :=
  match args with
  | [] => None
  | (_, Some e) :: _ => Some e
  | (_, None) :: rest => first_failure rest
  end.

(** The exception raised while the arguments of [asyncio.gather] are
    built, before anything is awaited. *)
Definition argument_failure (s : strategy) (target_tx : transaction) (sym : string)
  : option exn :=
  first_failure (arguments s target_tx sym).

(** The fetcher calls of a variant once validation has resolved the token
    symbol, in the order the code makes them: the single fetch of the
    aggressive variant, and in the gathering variants every call up to the
    first argument that raises. *)
Definition expected_fetches (s : strategy) (target_tx : transaction) (sym : string)
  : list event :=
  match s with
  | Aggressive _ => [CallFetch get_price_change_24h_func sym]
  | _ => calls_until_failure (arguments s target_tx sym)
  end.

(** The variants with a gather step. *)
Definition has_gather (s : strategy) : bool :=
  match s with Aggressive _ => false | _ => true end.

(** The current or the predicted price came back as [None], in the two
    variants that test for it. *)
Definition price_missing (s : strategy) (sym : string) : bool :=
  match s with
  | Predictive self =>
      is_none (delivered (PredictiveFrontRunStrategy._get_real_time_price self sym))
      || is_none (delivered (PredictiveFrontRunStrategy._predict_price_movement self sym))
  | Advanced self =>
      is_none (delivered (AdvancedFrontRunStrategy._get_real_time_price self sym))
      || is_none (delivered (AdvancedFrontRunStrategy._predict_price_movement self sym))
  | _ => false
  end.

(** The analysis record that follows the score call [c] can be formatted:
    always in the aggressive variant (it has none) and in the predictive
    one; in the volatility variant when the historical series is a
    non-empty list; in the advanced variant when the fetched volume is a
    number. *)
Definition analysis_formats (s : strategy) (c : score_call) : Prop :=
  match s, c with
  | Aggressive _, RiskScore _ _ _ => True
  | Predictive _, OpportunityScore _ _ _ _ _ => True
  | Volatility _, VolatilityScore hs _ _ => exists p ps, hs = Value (p :: ps)
  | Advanced self, RiskScore _ sym _ =>
      exists v, delivered (AdvancedFrontRunStrategy._get_token_volume self sym) = Value v
  | _, _ => False
  end.

(** The configuration a strategy was built with, the keys its constructor
    reads, and the same strategy built with another configuration. *)
Definition config_of (s : strategy) : configuration :=
  match s with
  | Aggressive self => AggressiveFrontRunStrategy.config self
  | Predictive self => PredictiveFrontRunStrategy.config self
  | Volatility self => VolatilityFrontRunStrategy.config self
  | Advanced self => AdvancedFrontRunStrategy.config self
  end.

Definition config_keys (s : strategy) : list string :=
  match s with
  | Aggressive _ =>
      ["AGGRESSIVE_FRONT_RUN_MIN_VALUE_ETH"; "AGGRESSIVE_FRONT_RUN_RISK_SCORE_THRESHOLD"]
  | Predictive _ => ["FRONT_RUN_OPPORTUNITY_SCORE_THRESHOLD"]
  | Volatility _ => ["VOLATILITY_FRONT_RUN_SCORE_THRESHOLD"]
  | Advanced _ => ["ADVANCED_FRONT_RUN_RISK_SCORE_THRESHOLD"]
  end.

Definition with_config (s : strategy) (c : configuration) : strategy :=
  match s with
  | Aggressive self =>
      Aggressive {|
        AggressiveFrontRunStrategy._validate_transaction :=
          AggressiveFrontRunStrategy._validate_transaction self;
        AggressiveFrontRunStrategy._calculate_risk_score :=
          AggressiveFrontRunStrategy._calculate_risk_score self;
        AggressiveFrontRunStrategy._front_run := AggressiveFrontRunStrategy._front_run self;
        AggressiveFrontRunStrategy._get_price_change_24h :=
          AggressiveFrontRunStrategy._get_price_change_24h self;
        AggressiveFrontRunStrategy.config := c |}
  | Predictive self =>
      Predictive {|
        PredictiveFrontRunStrategy._validate_transaction :=
          PredictiveFrontRunStrategy._validate_transaction self;
        PredictiveFrontRunStrategy._calculate_opportunity_score :=
          PredictiveFrontRunStrategy._calculate_opportunity_score self;
        PredictiveFrontRunStrategy._front_run := PredictiveFrontRunStrategy._front_run self;
        PredictiveFrontRunStrategy._predict_price_movement :=
          PredictiveFrontRunStrategy._predict_price_movement self;
        PredictiveFrontRunStrategy._get_real_time_price :=
          PredictiveFrontRunStrategy._get_real_time_price self;
        PredictiveFrontRunStrategy._check_market_conditions :=
          PredictiveFrontRunStrategy._check_market_conditions self;
        PredictiveFrontRunStrategy._get_token_price_data :=
          PredictiveFrontRunStrategy._get_token_price_data self;
        PredictiveFrontRunStrategy.config := c |}
  | Volatility self =>
      Volatility {|
        VolatilityFrontRunStrategy._validate_transaction :=
          VolatilityFrontRunStrategy._validate_transaction self;
        VolatilityFrontRunStrategy._calculate_volatility_score :=
          VolatilityFrontRunStrategy._calculate_volatility_score self;
        VolatilityFrontRunStrategy._front_run := VolatilityFrontRunStrategy._front_run self;
        VolatilityFrontRunStrategy._check_market_conditions :=
          VolatilityFrontRunStrategy._check_market_conditions self;
        VolatilityFrontRunStrategy._get_real_time_price :=
          VolatilityFrontRunStrategy._get_real_time_price self;
        VolatilityFrontRunStrategy._get_token_price_data :=
          VolatilityFrontRunStrategy._get_token_price_data self;
        VolatilityFrontRunStrategy.config := c |}
  | Advanced self =>
      Advanced {|
        AdvancedFrontRunStrategy._validate_transaction :=
          AdvancedFrontRunStrategy._validate_transaction self;
        AdvancedFrontRunStrategy._calculate_risk_score :=
          AdvancedFrontRunStrategy._calculate_risk_score self;
        AdvancedFrontRunStrategy._front_run := AdvancedFrontRunStrategy._front_run self;
        AdvancedFrontRunStrategy._predict_price_movement :=
          AdvancedFrontRunStrategy._predict_price_movement self;
        AdvancedFrontRunStrategy._check_market_conditions :=
          AdvancedFrontRunStrategy._check_market_conditions self;
        AdvancedFrontRunStrategy._get_real_time_price :=
          AdvancedFrontRunStrategy._get_real_time_price self;
        AdvancedFrontRunStrategy._get_token_volume :=
          AdvancedFrontRunStrategy._get_token_volume self;
        AdvancedFrontRunStrategy.config := c |}
  end.

(** The same aggressive or advanced strategy around another risk
    reducer. *)
Definition with_risk_reducer (s : strategy)
    (f : transaction -> string -> fetched float64 -> outcome (float64 * conditions))
  : strategy :=
  match s with
  | Aggressive self =>
      Aggressive {|
        AggressiveFrontRunStrategy._validate_transaction :=
          AggressiveFrontRunStrategy._validate_transaction self;
        AggressiveFrontRunStrategy._calculate_risk_score := f;
        AggressiveFrontRunStrategy._front_run := AggressiveFrontRunStrategy._front_run self;
        AggressiveFrontRunStrategy._get_price_change_24h :=
          AggressiveFrontRunStrategy._get_price_change_24h self;
        AggressiveFrontRunStrategy.config := AggressiveFrontRunStrategy.config self |}
  | Advanced self =>
      Advanced {|
        AdvancedFrontRunStrategy._validate_transaction :=
          AdvancedFrontRunStrategy._validate_transaction self;
        AdvancedFrontRunStrategy._calculate_risk_score := f;
        AdvancedFrontRunStrategy._front_run := AdvancedFrontRunStrategy._front_run self;
        AdvancedFrontRunStrategy._predict_price_movement :=
          AdvancedFrontRunStrategy._predict_price_movement self;
        AdvancedFrontRunStrategy._check_market_conditions :=
          AdvancedFrontRunStrategy._check_market_conditions self;
        AdvancedFrontRunStrategy._get_real_time_price :=
          AdvancedFrontRunStrategy._get_real_time_price self;
        AdvancedFrontRunStrategy._get_token_volume :=
          AdvancedFrontRunStrategy._get_token_volume self;
        AdvancedFrontRunStrategy.config := AdvancedFrontRunStrategy.config self |}
  | _ => s
  end.

(** The score a risk reducer hands back, without the market conditions
    that come with it. *)
Definition score_part (o : outcome (float64 * conditions)) : outcome float64 :=
  match o with
  | Returned (score, _) => Returned score
  | Raised e => Raised e
  end.

(** The same advanced strategy around other fetchers of the market
    conditions and of the volume. *)
Definition with_conditions_and_volume (self : AdvancedFrontRunStrategy.t)
    (check_market_conditions : string -> called (fetched conditions))
    (get_token_volume : string -> called (fetched float64))
  : AdvancedFrontRunStrategy.t := {|
  AdvancedFrontRunStrategy._validate_transaction :=
    AdvancedFrontRunStrategy._validate_transaction self;
  AdvancedFrontRunStrategy._calculate_risk_score :=
    AdvancedFrontRunStrategy._calculate_risk_score self;
  AdvancedFrontRunStrategy._front_run := AdvancedFrontRunStrategy._front_run self;
  AdvancedFrontRunStrategy._predict_price_movement :=
    AdvancedFrontRunStrategy._predict_price_movement self;
  AdvancedFrontRunStrategy._check_market_conditions := check_market_conditions;
  AdvancedFrontRunStrategy._get_real_time_price :=
    AdvancedFrontRunStrategy._get_real_time_price self;
  AdvancedFrontRunStrategy._get_token_volume := get_token_volume;
  AdvancedFrontRunStrategy.config := AdvancedFrontRunStrategy.config self
|}.

(** ** Further variations of the example collaborators *)

(** A transaction without a destination. *)
Definition transaction_without_destination : transaction :=
  {[ "data" := "0x..."; "value" := "0.01" ]}.

(** The validator itself fails. *)
Definition aggressive_failing_validator : AggressiveFrontRunStrategy.t := {|
  AggressiveFrontRunStrategy._validate_transaction :=
    fun _ _ _ => Raised (CollaboratorError "decoder failed");
  AggressiveFrontRunStrategy._calculate_risk_score := MockTransactionCore._calculate_risk_score;
  AggressiveFrontRunStrategy._front_run := MockTransactionCore.front_run;
  AggressiveFrontRunStrategy._get_price_change_24h := MockAPIConfig.get_price_change_24h;
  AggressiveFrontRunStrategy.config := MockConfiguration
|}.

(** The 24h price change comes back as [None]. *)
Definition aggressive_null_signal : AggressiveFrontRunStrategy.t :=
  aggressive_with (fun _ => Returned PyNone).

(** A risk reducer that fails, and one that returns the score of the
    example with other market conditions. *)
Definition failing_risk_reducer (target_tx : transaction) (token_symbol : string)
    (price_change : fetched float64) : outcome (float64 * conditions) :=
  Raised (CollaboratorError "risk model down").

Definition bearish_risk_reducer (target_tx : transaction) (token_symbol : string)
    (price_change : fetched float64) : outcome (float64 * conditions) :=
  Returned (eighty, {[ "bullish_trend" := false ]}).

(** The current-price feed of the predictive example is down, or delivers
    [None]. *)
Definition predictive_failing_price_feed : PredictiveFrontRunStrategy.t :=
  predictive_with (fun _ => Raised (CollaboratorError "price feed down"))
    MockTransactionCore.front_run.

Definition predictive_null_price : PredictiveFrontRunStrategy.t :=
  predictive_with (fun _ => Returned PyNone) MockTransactionCore.front_run.

(** The historical prices of the predictive example come back as [None]. *)
Definition predictive_null_history : PredictiveFrontRunStrategy.t := {|
  PredictiveFrontRunStrategy._validate_transaction := MockTransactionCore._validate_transaction;
  PredictiveFrontRunStrategy._calculate_opportunity_score :=
    MockTransactionCore._calculate_opportunity_score;
  PredictiveFrontRunStrategy._front_run := MockTransactionCore.front_run;
  PredictiveFrontRunStrategy._predict_price_movement :=
    MockMarketMonitor.predict_price_movement;
  PredictiveFrontRunStrategy._get_real_time_price := MockAPIConfig.get_real_time_price;
  PredictiveFrontRunStrategy._check_market_conditions :=
    MockMarketMonitor.check_market_conditions;
  PredictiveFrontRunStrategy._get_token_price_data := fun _ _ _ => Returned PyNone;
  PredictiveFrontRunStrategy.config := MockConfiguration
|}.

(** The volatility reducer returns NaN; the historical prices come back as
    [None]. *)
Definition volatility_nan_score : VolatilityFrontRunStrategy.t :=
  volatility_with MockAPIConfig.get_real_time_price MockAPIConfig.get_token_price_data
    S754_nan.

Definition volatility_null_history : VolatilityFrontRunStrategy.t :=
  volatility_with MockAPIConfig.get_real_time_price (fun _ _ _ => Returned PyNone)
    eighty_five.

(** The market conditions, or the volume, of the advanced example come
    back as [None]. *)
Definition advanced_null_conditions : AdvancedFrontRunStrategy.t :=
  advanced_with (fun _ => Returned PyNone).

Definition advanced_null_volume : AdvancedFrontRunStrategy.t :=
  with_conditions_and_volume advanced_strategy MockMarketMonitor.check_market_conditions
    (fun _ => Returned PyNone).

(** The current-price fetcher of the predictive example raises when it is
    called, before there is anything to await. *)
Definition predictive_unreachable_price_feed : PredictiveFrontRunStrategy.t :=
  predictive_with (fun _ => CallRaised (CollaboratorError "no session"))
    MockTransactionCore.front_run.

(** The current-price fetcher of the volatility example is cancelled while
    it is awaited. *)
Definition volatility_cancelled_price : VolatilityFrontRunStrategy.t :=
  volatility_with (fun _ => EndsCancelled) MockAPIConfig.get_token_price_data eighty_five.


(** A configuration that only carries the key of another variant. *)
Definition foreign_configuration : configuration :=
  {[ "AGGRESSIVE_FRONT_RUN_RISK_SCORE_THRESHOLD" := fifty ]}.

(** ** Comparison of floats *)

Lemma SFcompare_swap (x y : float64) :
  SFcompare y x = option_map CompOpp (SFcompare x y).
Proof.
  destruct x as [sx|sx| |sx mx ex], y as [sy|sy| |sy my ey]; try reflexivity;
    try (destruct sx; reflexivity); try (destruct sy; reflexivity);
    try (destruct sx, sy; reflexivity).
  unfold SFcompare. rewrite (Z.compare_antisym ey ex).
  destruct sx, sy; cbn [option_map]; try reflexivity;
    destruct (ey ?= ex)%Z; cbn [CompOpp]; try reflexivity;
    rewrite (Pos.compare_cont_antisym mx my Eq); reflexivity.
Qed.

(** A score that compares equal to the threshold is at least the
    threshold. *)
Lemma py_eq_ge (x y : float64) : py_eq x y = true -> py_ge x y = true.
Proof.
  unfold py_eq, py_ge, SFeqb, SFleb. rewrite (SFcompare_swap x y).
  destruct (SFcompare x y) as [[ | | ]|]; simpl; congruence.
Qed.

(** A score strictly below the threshold is not at least the threshold. *)
Lemma py_lt_not_ge (x y : float64) : py_lt x y = true -> py_ge x y = false.
Proof.
  unfold py_lt, py_ge, SFltb, SFleb. rewrite (SFcompare_swap x y).
  destruct (SFcompare x y) as [[ | | ]|]; simpl; congruence.
Qed.

(** ** Running the evaluators *)

Arguments py_ge : simpl never.
Arguments py_eq : simpl never.
Arguments py_lt : simpl never.
Arguments config_get : simpl never.

Ltac run_unfold :=
  cbv beta delta
    [execute validation front_run min_value
     AggressiveFrontRunStrategy.execute PredictiveFrontRunStrategy.execute
     VolatilityFrontRunStrategy.execute AdvancedFrontRunStrategy.execute
     PredictiveFrontRunStrategy.gather_market_data
     VolatilityFrontRunStrategy.gather_market_data
     AdvancedFrontRunStrategy.gather_market_data
     bind await log ret eval call try_except py_getitem
     front_run_calls score_calls fetch_calls collaborator_calls] in *.

(** Rewrite with what the hypotheses say the collaborators return. *)
Ltac run_step :=
  match goal with
  | H : ?l = Returned _ |- context [?l] => rewrite H
  | H : ?l = Raised _ |- context [?l] => rewrite H
  | H : ?l = Returns _ |- context [?l] => rewrite H
  | H : ?l = CallRaised _ |- context [?l] => rewrite H
  | H : ?l = Some _ |- context [?l] => rewrite H
  | H : ?l = None |- context [?l] => rewrite H
  | H : ?l = true |- context [?l] => rewrite H
  | H : ?l = false |- context [?l] => rewrite H
  end.

Ltac run := run_unfold; repeat (simpl; run_step); simpl.

(** ** Validation is the single precondition gate *)

(** C3.  When the validator answers [is_valid = false], every variant
    returns [false], and the validation call is the only collaborator call
    of the run: no fetcher, no score reducer and no executor is invoked. *)
Theorem validation_rejection_stops_evaluation :
  forall (np : numpy) (s : strategy) (target_tx : transaction) (d : decoded)
         (sym : string),
    validation s target_tx = Returned (false, d, sym) ->
    result (execute np s target_tx) = Returned false /\
    collaborator_calls (trace (execute np s target_tx)) =
      [CallValidate target_tx "front_run" (min_value s)] /\
    fetch_calls (trace (execute np s target_tx)) = [] /\
    score_calls (trace (execute np s target_tx)) = [] /\
    front_run_calls (trace (execute np s target_tx)) = [].
Proof.
  intros np s tx d sym H.
  destruct s as [self|self|self|self]; run; repeat split; reflexivity.
Qed.

Lemma validation_rejection_witness :
  validation (Volatility volatility_rejecting) example_transaction
    = Returned (false, ∅, "") /\
  (result (execute np_example (Volatility volatility_rejecting) example_transaction)
     = Returned false /\
   collaborator_calls
     (trace (execute np_example (Volatility volatility_rejecting) example_transaction))
     = [CallValidate example_transaction "front_run" None] /\
   fetch_calls
     (trace (execute np_example (Volatility volatility_rejecting) example_transaction))
     = [] /\
   score_calls
     (trace (execute np_example (Volatility volatility_rejecting) example_transaction))
     = [] /\
   front_run_calls
     (trace (execute np_example (Volatility volatility_rejecting) example_transaction))
     = []).
Proof.
  split; [reflexivity|].
  apply (validation_rejection_stops_evaluation np_example
           (Volatility volatility_rejecting) example_transaction ∅ "").
  reflexivity.
Defined.

(** ** Runs that return *)

Ltac run_cases :=
  run_unfold; simpl;
  repeat (case_match; simpl in *; simplify_eq).


(** ** The fetcher of the aggressive variant is unguarded *)

(** C2 (defect of the aggressive variant).  When the validator accepts the
    transaction and the 24h price-change fetcher raises, the aggressive
    [execute] does not return [false]: the exception escapes to the
    caller.  Neither the score reducer nor the executor is invoked. *)
Theorem aggressive_fetch_failure_escapes :
  forall (self : AggressiveFrontRunStrategy.t) (target_tx : transaction) (d : decoded)
         (sym : string) (e : exn),
    AggressiveFrontRunStrategy._validate_transaction self target_tx "front_run"
      (Some (AggressiveFrontRunStrategy.min_value_eth self)) = Returned (true, d, sym) ->
    AggressiveFrontRunStrategy._get_price_change_24h self sym = Raised e ->
    result (AggressiveFrontRunStrategy.execute self target_tx) = Raised e /\
    score_calls (trace (AggressiveFrontRunStrategy.execute self target_tx)) = [] /\
    front_run_calls (trace (AggressiveFrontRunStrategy.execute self target_tx)) = [].
Proof.
  intros self tx d sym e Hvalid Hfetch. run. auto.
Qed.

Lemma aggressive_fetch_failure_witness :
  result (AggressiveFrontRunStrategy.execute aggressive_failing_fetcher example_transaction)
    = Raised (CollaboratorError "price feed down") /\
  score_calls
    (trace (AggressiveFrontRunStrategy.execute aggressive_failing_fetcher
              example_transaction)) = [] /\
  front_run_calls
    (trace (AggressiveFrontRunStrategy.execute aggressive_failing_fetcher
              example_transaction)) = [].
Proof.
  apply (aggressive_fetch_failure_escapes aggressive_failing_fetcher example_transaction
           ∅ "MOCK_TOKEN" (CollaboratorError "price feed down")); reflexivity.
Defined.

(** ** The analysis record of the volatility variant *)

(** Formatting the analysis record of the volatility variant fails on an
    empty historical series: [min([])] raises [ValueError]. *)
Lemma volatility_analysis_message_empty (sym : string) (score : float64)
    (cur : fetched float64) (mc : fetched conditions) :
  VolatilityFrontRunStrategy.analysis_message sym score cur (Value []) mc
  = Raised ValueError.
Proof. reflexivity. Qed.

(** C4 (defect of the volatility variant).  Validation succeeds, the three
    fetchers succeed, the historical series they deliver is empty, and the
    reducer returns a score that reaches the threshold: the run raises
    [ValueError] while formatting the analysis record, and the executor is
    not invoked. *)
Theorem volatility_empty_history_blocks_dispatch :
  forall (self : VolatilityFrontRunStrategy.t) (target_tx : transaction) (d : decoded)
         (sym to : string) (mc : conditions) (cur score : float64),
    VolatilityFrontRunStrategy._validate_transaction self target_tx "front_run" None
      = Returned (true, d, sym) ->
    target_tx !! "to" = Some to ->
    VolatilityFrontRunStrategy._check_market_conditions self to = Returned (Value mc) ->
    VolatilityFrontRunStrategy._get_real_time_price self sym = Returned (Value cur) ->
    VolatilityFrontRunStrategy._get_token_price_data self sym "historical" 1
      = Returned (Value []) ->
    VolatilityFrontRunStrategy._calculate_volatility_score self (Value []) (Value cur)
      (Value mc) = Returned score ->
    py_ge score (VolatilityFrontRunStrategy.volatility_score_threshold self) = true ->
    result (VolatilityFrontRunStrategy.execute self target_tx) = Raised ValueError /\
    front_run_calls (trace (VolatilityFrontRunStrategy.execute self target_tx)) = [].
Proof.
  intros self tx d sym to mc cur score Hvalid Hto Hmc Hcur Hhist Hscore Hge.
  run. auto.
Qed.

Lemma volatility_empty_history_witness :
  result (VolatilityFrontRunStrategy.execute volatility_empty_history example_transaction)
    = Raised ValueError /\
  front_run_calls
    (trace (VolatilityFrontRunStrategy.execute volatility_empty_history
              example_transaction)) = [].
Proof.
  apply (volatility_empty_history_blocks_dispatch volatility_empty_history
           example_transaction ∅ "MOCK_TOKEN"
           "0x7a250d5630B4cF539739dF2C5dAcb4c659F2488D"
           {[ "bullish_trend" := true; "high_volatility" := true;
              "low_liquidity" := false ]}
           ten eighty_five); reflexivity.
Defined.

(** C5 (same defect).  Under the same conditions with a score strictly
    below the threshold, the run does not return [false]: it raises
    [ValueError] before the gate is reached.  The executor is not
    invoked. *)
Theorem volatility_empty_history_below_threshold :
  forall (self : VolatilityFrontRunStrategy.t) (target_tx : transaction) (d : decoded)
         (sym to : string) (mc : conditions) (cur score : float64),
    VolatilityFrontRunStrategy._validate_transaction self target_tx "front_run" None
      = Returned (true, d, sym) ->
    target_tx !! "to" = Some to ->
    VolatilityFrontRunStrategy._check_market_conditions self to = Returned (Value mc) ->
    VolatilityFrontRunStrategy._get_real_time_price self sym = Returned (Value cur) ->
    VolatilityFrontRunStrategy._get_token_price_data self sym "historical" 1
      = Returned (Value []) ->
    VolatilityFrontRunStrategy._calculate_volatility_score self (Value []) (Value cur)
      (Value mc) = Returned score ->
    py_lt score (VolatilityFrontRunStrategy.volatility_score_threshold self) = true ->
    result (VolatilityFrontRunStrategy.execute self target_tx) = Raised ValueError /\
    result (VolatilityFrontRunStrategy.execute self target_tx) <> Returned false /\
    front_run_calls (trace (VolatilityFrontRunStrategy.execute self target_tx)) = [].
Proof.
  intros self tx d sym to mc cur score Hvalid Hto Hmc Hcur Hhist Hscore Hlt.
  run. repeat split; [discriminate].
Qed.

Lemma volatility_below_threshold_witness :
  result (VolatilityFrontRunStrategy.execute volatility_empty_history_low_score
            example_transaction) = Raised ValueError /\
  result (VolatilityFrontRunStrategy.execute volatility_empty_history_low_score
            example_transaction) <> Returned false /\
  front_run_calls
    (trace (VolatilityFrontRunStrategy.execute volatility_empty_history_low_score
              example_transaction)) = [].
Proof.
  apply (volatility_empty_history_below_threshold volatility_empty_history_low_score
           example_transaction ∅ "MOCK_TOKEN"
           "0x7a250d5630B4cF539739dF2C5dAcb4c659F2488D"
           {[ "bullish_trend" := true; "high_volatility" := true;
              "low_liquidity" := false ]}
           ten fifty); reflexivity.
Defined.

(** ** Missing values *)

(** C6 (defect of the volatility variant).  No fetcher raises and the
    current price comes back as [None]: the volatility variant does not
    abort, it calls its score reducer with the null price. *)
Theorem volatility_scores_null_price :
  forall (self : VolatilityFrontRunStrategy.t) (target_tx : transaction) (d : decoded)
         (sym to : string) (mc : conditions) (hs : list float64),
    VolatilityFrontRunStrategy._validate_transaction self target_tx "front_run" None
      = Returned (true, d, sym) ->
    target_tx !! "to" = Some to ->
    VolatilityFrontRunStrategy._check_market_conditions self to = Returned (Value mc) ->
    VolatilityFrontRunStrategy._get_real_time_price self sym = Returned PyNone ->
    VolatilityFrontRunStrategy._get_token_price_data self sym "historical" 1
      = Returned (Value hs) ->
    score_calls (trace (VolatilityFrontRunStrategy.execute self target_tx))
    = [CallScore (VolatilityScore (Value hs) PyNone (Value mc))].
Proof.
  intros self tx d sym to mc hs Hvalid Hto Hmc Hcur Hhist.
  run. repeat (case_match; simpl); reflexivity.
Qed.

Lemma volatility_null_price_witness :
  score_calls
    (trace (VolatilityFrontRunStrategy.execute volatility_null_price example_transaction))
  = [CallScore (VolatilityScore (Value MockAPIConfig.historical) PyNone
                  (Value {[ "bullish_trend" := true; "high_volatility" := true;
                            "low_liquidity" := false ]}))].
Proof.
  apply (volatility_scores_null_price volatility_null_price example_transaction ∅
           "MOCK_TOKEN" "0x7a250d5630B4cF539739dF2C5dAcb4c659F2488D"); reflexivity.
Defined.

(** ** The percentage price change *)

(** With proper prices the change is the float expression
    [(p / c - 1) * 100], unless the divisor is zero. *)
Lemma price_change_pct_value (p c : float64) :
  py_eq c zero = false ->
  price_change_pct (Value p) (Value c) = Returned (fmul (fsub (fdiv p c) one) hundred).
Proof. intros H. unfold price_change_pct, py_float, py_truediv. rewrite H. reflexivity. Qed.

Lemma price_change_pct_zero (p c : float64) :
  py_eq c zero = true ->
  price_change_pct (Value p) (Value c) = Raised ZeroDivisionError.
Proof. intros H. unfold price_change_pct, py_float, py_truediv. rewrite H. reflexivity. Qed.

(** C10.  In the predictive and in the advanced variant, when validation
    succeeds, all four fetchers return values and the current price is
    zero, [execute] raises [ZeroDivisionError]; it returns no boolean and
    calls neither the score reducer nor the executor. *)
Theorem zero_current_price_raises :
  forall (np : numpy) (s : strategy) (target_tx : transaction) (d : decoded)
         (sym to : string) (p c : float64),
    validation s target_tx = Returned (true, d, sym) ->
    target_tx !! "to" = Some to ->
    fetches_prices s to sym p c ->
    py_eq c zero = true ->
    result (execute np s target_tx) = Raised ZeroDivisionError /\
    score_calls (trace (execute np s target_tx)) = [] /\
    front_run_calls (trace (execute np s target_tx)) = [].
Proof.
  intros np s tx d sym to p c Hvalid Hto Hfetch Hzero.
  destruct s as [self|self|self|self]; simpl in Hfetch; try contradiction;
    destruct Hfetch as (Hp & Hc & [m Hm] & [x Hx]);
    pose proof (price_change_pct_zero p c Hzero) as Hdiv;
    run; auto.
Qed.

Lemma zero_current_price_witness :
  result (execute np_example (Predictive predictive_zero_price) example_transaction)
    = Raised ZeroDivisionError /\
  score_calls
    (trace (execute np_example (Predictive predictive_zero_price) example_transaction))
    = [] /\
  front_run_calls
    (trace (execute np_example (Predictive predictive_zero_price) example_transaction))
    = [].
Proof.
  apply (zero_current_price_raises np_example (Predictive predictive_zero_price)
           example_transaction ∅ "MOCK_TOKEN"
           "0x7a250d5630B4cF539739dF2C5dAcb4c659F2488D" ten_and_a_half zero).
  - reflexivity.
  - reflexivity.
  - simpl. repeat split; try reflexivity; eexists; reflexivity.
  - reflexivity.
Defined.

(** The volatility ratio of an empty series is the float zero. *)
Lemma volatility_ratio_empty (np : numpy) : volatility_ratio np (Value []) = Returned zero.
Proof. reflexivity. Qed.

Lemma volatility_ratio_nonempty (np : numpy) (x : float64) (l : list float64) :
  volatility_ratio np (Value (x :: l))
  = Returned (fdiv (std np (x :: l)) (mean np (x :: l))).
Proof. reflexivity. Qed.

(** C7, as stated, fails on the example prices: with a predicted price of
    10.5 and a current price of 10.0 the change is the float
    5.000000000000004, which does not compare equal to 5.0. *)
Lemma example_price_change_is_not_five :
  price_change_pct (Value ten_and_a_half) (Value ten) = Returned five_plus_5ulp /\
  py_eq five_plus_5ulp five = false /\
  price_change_pct (Value ten_and_a_half) (Value ten) <> Returned five.
Proof. vm_compute. repeat split; discriminate. Qed.

(** C7 (amended).  The predictive variant calls its score reducer once,
    with the percentage change [(predicted / current - 1) * 100] computed
    in binary64 and with the volatility ratio [std / mean] of the
    historical prices, which is the float zero when the series is empty.
    For the example prices 10.5 and 10.0 the change is 5.000000000000004,
    the rounded float result, not 5.0. *)
Theorem predictive_score_inputs :
  forall (np : numpy) (self : PredictiveFrontRunStrategy.t) (target_tx : transaction)
         (d : decoded) (sym to : string) (p c : float64) (mc : conditions)
         (hs : list float64),
    PredictiveFrontRunStrategy._validate_transaction self target_tx "front_run" None
      = Returned (true, d, sym) ->
    target_tx !! "to" = Some to ->
    PredictiveFrontRunStrategy._predict_price_movement self sym = Returned (Value p) ->
    PredictiveFrontRunStrategy._get_real_time_price self sym = Returned (Value c) ->
    PredictiveFrontRunStrategy._check_market_conditions self to = Returned (Value mc) ->
    PredictiveFrontRunStrategy._get_token_price_data self sym "historical" 1
      = Returned (Value hs) ->
    py_eq c zero = false ->
    score_calls (trace (PredictiveFrontRunStrategy.execute np self target_tx))
    = [CallScore
         (OpportunityScore
            (fmul (fsub (fdiv p c) one) hundred)
            (match hs with [] => zero | _ :: _ => fdiv (std np hs) (mean np hs) end)
            (Value mc) (Value c) (Value hs))] /\
    (p = ten_and_a_half -> c = ten ->
     fmul (fsub (fdiv p c) one) hundred = five_plus_5ulp).
Proof.
  intros np self tx d sym to p c mc hs Hvalid Hto Hp Hc Hmc Hhs Hnz.
  split; [|intros -> ->; vm_compute; reflexivity].
  pose proof (price_change_pct_value p c Hnz) as Hdiv.
  destruct hs as [|x l].
  - pose proof (volatility_ratio_empty np) as Hvol.
    run. repeat (case_match; simpl); reflexivity.
  - pose proof (volatility_ratio_nonempty np x l) as Hvol.
    run. repeat (case_match; simpl); reflexivity.
Qed.

Lemma predictive_score_inputs_witness :
  score_calls
    (trace (PredictiveFrontRunStrategy.execute np_example predictive_strategy
              example_transaction))
  = [CallScore
       (OpportunityScore
          (fmul (fsub (fdiv ten_and_a_half ten) one) hundred)
          (fdiv (std np_example MockAPIConfig.historical)
             (mean np_example MockAPIConfig.historical))
          (Value {[ "bullish_trend" := true; "high_volatility" := true;
                    "low_liquidity" := false ]})
          (Value ten) (Value MockAPIConfig.historical))] /\
  (ten_and_a_half = ten_and_a_half -> ten = ten ->
   fmul (fsub (fdiv ten_and_a_half ten) one) hundred = five_plus_5ulp).
Proof.
  apply (predictive_score_inputs np_example predictive_strategy example_transaction ∅
           "MOCK_TOKEN" "0x7a250d5630B4cF539739dF2C5dAcb4c659F2488D" ten_and_a_half ten
           {[ "bullish_trend" := true; "high_volatility" := true;
              "low_liquidity" := false ]}
           MockAPIConfig.historical); reflexivity.
Defined.

(** ** The readings of the market conditions *)

Lemma has_liquidity_negates (m : conditions) (low : bool) :
  m !! "low_liquidity" = Some low ->
  AdvancedFrontRunStrategy.has_liquidity (Value m) = Returned (negb low).
Proof.
  intros H. unfold AdvancedFrontRunStrategy.has_liquidity, dict_get.
  rewrite H. reflexivity.
Qed.

(** C8.  In the advanced variant an absent [bullish_trend] reads as not
    bullish, an absent [high_volatility] as not volatile, and
    [has_liquidity] is the negation of [low_liquidity], which reads as
    true when absent, so that [has_liquidity] is false.  With the
    [low_liquidity] key missing the evaluation goes on: the reducer is
    called with the percentage change, the analysis record shows the
    readings, and the gate decides the result. *)
Theorem advanced_readings_default_conservatively :
  forall (self : AdvancedFrontRunStrategy.t) (target_tx : transaction) (d : decoded)
         (sym to : string) (p c v : float64) (m : conditions),
    AdvancedFrontRunStrategy._validate_transaction self target_tx "front_run" None
      = Returned (true, d, sym) ->
    target_tx !! "to" = Some to ->
    AdvancedFrontRunStrategy._predict_price_movement self sym = Returned (Value p) ->
    AdvancedFrontRunStrategy._check_market_conditions self to = Returned (Value m) ->
    AdvancedFrontRunStrategy._get_real_time_price self sym = Returned (Value c) ->
    AdvancedFrontRunStrategy._get_token_volume self sym = Returned (Value v) ->
    py_eq c zero = false ->
    m !! "low_liquidity" = None ->
    let change := fmul (fsub (fdiv p c) one) hundred in
    AdvancedFrontRunStrategy.has_liquidity (Value m) = Returned false /\
    (forall low, AdvancedFrontRunStrategy.has_liquidity
                   (Value (<["low_liquidity" := low]> m)) = Returned (negb low)) /\
    (m !! "bullish_trend" = None ->
     AdvancedFrontRunStrategy.is_bullish (Value m) = Returned false) /\
    (m !! "high_volatility" = None ->
     AdvancedFrontRunStrategy.is_volatile (Value m) = Returned false) /\
    score_calls (trace (AdvancedFrontRunStrategy.execute self target_tx))
      = [CallScore (RiskScore target_tx sym (Value change))] /\
    (forall score m',
       AdvancedFrontRunStrategy._calculate_risk_score self target_tx sym (Value change)
         = Returned (score, m') ->
       In (LogRecord DEBUG
             (AdvancedAnalysis sym change (default false (m !! "bullish_trend"))
                (default false (m !! "high_volatility")) false v score))
          (trace (AdvancedFrontRunStrategy.execute self target_tx)) /\
       result (AdvancedFrontRunStrategy.execute self target_tx)
       = if py_ge score (AdvancedFrontRunStrategy.risk_score_threshold self)
         then AdvancedFrontRunStrategy._front_run self target_tx
         else Returned false).
Proof.
  intros self tx d sym to p c v m Hvalid Hto Hp Hm Hc Hv Hnz Hlow change.
  pose proof (price_change_pct_value p c Hnz) as Hdiv. fold change in Hdiv.
  assert (Hliq : AdvancedFrontRunStrategy.has_liquidity (Value m) = Returned false).
  { unfold AdvancedFrontRunStrategy.has_liquidity, dict_get. rewrite Hlow. reflexivity. }
  split; [exact Hliq|].
  split; [intros low; apply has_liquidity_negates, lookup_insert_eq|].
  split.
  { intros H. unfold AdvancedFrontRunStrategy.is_bullish, dict_get. rewrite H. reflexivity. }
  split.
  { intros H. unfold AdvancedFrontRunStrategy.is_volatile, dict_get. rewrite H. reflexivity. }
  unfold AdvancedFrontRunStrategy.execute, AdvancedFrontRunStrategy.gather_market_data,
    AdvancedFrontRunStrategy.is_bullish, AdvancedFrontRunStrategy.is_volatile,
    AdvancedFrontRunStrategy.analysis_message.
  split.
  - run. repeat (case_match; simpl); reflexivity.
  - intros score m' Hscore. run.
    destruct (py_ge score (AdvancedFrontRunStrategy.risk_score_threshold self));
      simpl; split; try reflexivity; tauto.
Qed.

Lemma advanced_readings_witness :
  let change := fmul (fsub (fdiv ten_and_a_half ten) one) hundred in
  AdvancedFrontRunStrategy.has_liquidity (Value conditions_without_liquidity)
    = Returned false /\
  (forall low, AdvancedFrontRunStrategy.has_liquidity
                 (Value (<["low_liquidity" := low]> conditions_without_liquidity))
               = Returned (negb low)) /\
  (conditions_without_liquidity !! "bullish_trend" = None ->
   AdvancedFrontRunStrategy.is_bullish (Value conditions_without_liquidity)
     = Returned false) /\
  (conditions_without_liquidity !! "high_volatility" = None ->
   AdvancedFrontRunStrategy.is_volatile (Value conditions_without_liquidity)
     = Returned false) /\
  score_calls
    (trace (AdvancedFrontRunStrategy.execute advanced_missing_liquidity
              example_transaction))
    = [CallScore (RiskScore example_transaction "MOCK_TOKEN" (Value change))] /\
  (forall score m',
     AdvancedFrontRunStrategy._calculate_risk_score advanced_missing_liquidity
       example_transaction "MOCK_TOKEN" (Value change) = Returned (score, m') ->
     In (LogRecord DEBUG
           (AdvancedAnalysis "MOCK_TOKEN" change
              (default false (conditions_without_liquidity !! "bullish_trend"))
              (default false (conditions_without_liquidity !! "high_volatility"))
              false million score))
        (trace (AdvancedFrontRunStrategy.execute advanced_missing_liquidity
                  example_transaction)) /\
     result (AdvancedFrontRunStrategy.execute advanced_missing_liquidity
               example_transaction)
     = if py_ge score (AdvancedFrontRunStrategy.risk_score_threshold
                         advanced_missing_liquidity)
       then AdvancedFrontRunStrategy._front_run advanced_missing_liquidity
              example_transaction
       else Returned false).
Proof.
  apply (advanced_readings_default_conservatively advanced_missing_liquidity
           example_transaction ∅ "MOCK_TOKEN"
           "0x7a250d5630B4cF539739dF2C5dAcb4c659F2488D" ten_and_a_half ten million
           conditions_without_liquidity); reflexivity.
Defined.

(** ** Which failures are caught *)

Lemma volatility_analysis_message_ok (sym : string) (score : float64)
    (cur : fetched float64) (x : float64) (l : list float64) (mc : fetched conditions) :
  VolatilityFrontRunStrategy.analysis_message sym score cur (Value (x :: l)) mc
  = Returned (VolatilityAnalysis sym score cur (min_of x l) (max_of x l) mc).
Proof. reflexivity. Qed.

Ltac find_event := simpl; repeat first [left; reflexivity | right].

Ltac solve_unguarded :=
  first
    [ left; done
    | right; left; eexists; split; [find_event | simpl; done]
    | right; right; split; [find_event | done] ].

(** A division that raised although the divisor is known not to be zero. *)
Ltac refute_division :=
  match goal with
  | H : price_change_pct (Value ?p) (Value ?c) = Raised _,
    Hus : forall c, _ = Value c -> py_eq c zero = false |- _ =>
      rewrite (price_change_pct_value p c (Hus c eq_refl)) in H; discriminate
  end.

(** Case analysis on the arguments of [gather]: each fetcher call returns
    an awaitable or raises, and the transaction has a [to] field or not. *)
Ltac argument_cases :=
  repeat match goal with
         | |- context [match ?c with Returns _ => _ | CallRaised _ => _ end] =>
             destruct c eqn:?; simpl in *; simplify_eq
         | |- context [match ?tx !! "to" with Some _ => _ | None => _ end] =>
             destruct (tx !! "to") eqn:?; simpl in *; simplify_eq
         end.

(** Case analysis on what each gathered fetcher delivered. *)
Ltac gather_cases :=
  repeat match goal with
         | |- context [settle ?o] => destruct (settle o) eqn:?; simpl in *; simplify_eq
         end.

Ltac use_gathered :=
  repeat match goal with
         | Heq : ?c = Returns _, H : context [delivered ?c] |- _ =>
             rewrite Heq in H; simpl in H
         | Heq : ?c = CallRaised _, H : context [delivered ?c] |- _ =>
             rewrite Heq in H; simpl in H
         | Heq : ?c = Returns _, H : context [call_error ?c] |- _ =>
             rewrite Heq in H; simpl in H
         | Heq : ?c = CallRaised _, H : context [call_error ?c] |- _ =>
             rewrite Heq in H; simpl in H
         | Heq : settle ?o = _, H : context [settle ?o] |- _ => rewrite Heq in H
         end;
  simpl in *.

Ltac settle_cases :=
  repeat (case_match; simpl in *; simplify_eq);
  (let e := fresh "e" in
   let He := fresh "He" in
   intros e He; simplify_eq; use_gathered; try congruence;
   try refute_division; solve_unguarded).

Ltac unfold_messages :=
  cbv delta [PredictiveFrontRunStrategy.analysis_message
             PredictiveFrontRunStrategy.executing_message
             VolatilityFrontRunStrategy.analysis_message
             AdvancedFrontRunStrategy.analysis_message
             AdvancedFrontRunStrategy.is_bullish AdvancedFrontRunStrategy.is_volatile
             AdvancedFrontRunStrategy.has_liquidity
             dict_get fmt_f py_min py_max volatility_ratio] in *.

(** The score call of a run, found in its trace. *)
Ltac locate_score_call H :=
  simpl in H;
  repeat match type of H with
         | _ \/ _ => destruct H as [H|H]
         | False => contradiction
         | _ = _ =>
             first [discriminate H | (injection H as <-) | (injection H; intros; subst)]
         end.

(** Gather flags that cannot all be false. *)
Ltac split_flags :=
  repeat match goal with
         | H : _ || _ = false |- _ => apply orb_false_elim in H; destruct H
         end.

(** The gather step did not fail, although an argument of [gather]
    raised. *)
Ltac refute_no_failure H :=
  solve [ simpl in H;
          repeat match type of H with
                 | context [match ?o with Some _ => _ | None => _ end] =>
                     destruct o; simpl in H
                 end;
          split_flags; congruence ].

(** An exception of the validator is the outcome of the run, and the
    validation call is the only collaborator call. *)
Lemma validator_exception_escapes (np : numpy) (s : strategy) (target_tx : transaction)
    (e : exn) :
  validation s target_tx = Raised e ->
  result (execute np s target_tx) = Raised e /\
  collaborator_calls (trace (execute np s target_tx))
  = [CallValidate target_tx "front_run" (min_value s)].
Proof.
  intros Hvalid.
  destruct s as [self|self|self|self]; simpl in Hvalid; run; split; reflexivity.
Qed.

(** An exception of the score reducer, on the call the run made, is the
    outcome of the run, and the executor is not called. *)
Lemma reducer_exception_escapes (np : numpy) (s : strategy) (target_tx : transaction)
    (c : score_call) (e : exn) :
  In (CallScore c) (trace (execute np s target_tx)) ->
  reducer_raises s c e ->
  result (execute np s target_tx) = Raised e /\
  front_run_calls (trace (execute np s target_tx)) = [].
Proof.
  destruct s as [self|self|self|self]; run_unfold; unfold_messages; simpl;
    argument_cases;
    repeat (case_match; simpl in *; simplify_eq);
    intros Hin Hraise; locate_score_call Hin; simpl in *;
    use_gathered; try congruence; split_flags; try congruence;
    split; first [reflexivity | congruence].
Qed.

(** An exception of the executor, once the run called it, is the outcome of
    the run. *)
Lemma executor_exception_escapes (np : numpy) (s : strategy) (target_tx : transaction)
    (e : exn) :
  In (CallFrontRun target_tx) (trace (execute np s target_tx)) ->
  front_run s target_tx = Raised e ->
  result (execute np s target_tx) = Raised e.
Proof.
  destruct s as [self|self|self|self]; run_unfold; unfold_messages; simpl;
    argument_cases;
    repeat (case_match; simpl in *; simplify_eq);
    intros Hin Hraise; locate_score_call Hin; simpl in *;
    congruence.
Qed.

(** A failure inside the gather step of the predictive, volatility and
    advanced variants ends the run with [false], before any score is
    computed and with the executor untouched. *)
Lemma gather_failure_aborts (np : numpy) (s : strategy) (target_tx : transaction)
    (d : decoded) (sym : string) :
  validation s target_tx = Returned (true, d, sym) ->
  gather_failed s target_tx sym = true ->
  result (execute np s target_tx) = Returned false /\
  score_calls (trace (execute np s target_tx)) = [] /\
  front_run_calls (trace (execute np s target_tx)) = [].
Proof.
  intros Hvalid Hfail.
  destruct s as [self|self|self|self]; simpl in Hvalid; [discriminate Hfail| | |];
    run; argument_cases; auto; use_gathered; rewrite Hfail; simpl; auto.
Qed.

(** On usable signals a run raises nothing but what the validator, the
    score reducer or the executor raised. *)
Lemma usable_signals_raise_unguarded (np : numpy) (s : strategy)
    (target_tx : transaction) :
  (forall d sym, validation s target_tx = Returned (true, d, sym) ->
                 signals_usable s target_tx sym) ->
  forall e, result (execute np s target_tx) = Raised e ->
            unguarded_failure s target_tx (trace (execute np s target_tx)) e.
Proof.
  intros Hus. unfold unguarded_failure.
  destruct s as [self|self|self|self]; simpl in Hus |- *.
  - destruct (AggressiveFrontRunStrategy._validate_transaction self target_tx "front_run"
                (Some (AggressiveFrontRunStrategy.min_value_eth self)))
      as [[[[|] d] sym]|e0] eqn:Hval; run.
    + destruct (Hus d sym eq_refl) as [v Hv]. run. settle_cases.
    + settle_cases.
    + settle_cases.
  - destruct (PredictiveFrontRunStrategy._validate_transaction self target_tx "front_run"
                None)
      as [[[[|] d] sym]|e0] eqn:Hval; run.
    + destruct (Hus d sym eq_refl) as (Hc & Hcc & Hpc & Hhc).
      cbv delta [PredictiveFrontRunStrategy.analysis_message
                 PredictiveFrontRunStrategy.executing_message fmt_f volatility_ratio].
      argument_cases; try (intros; discriminate).
      gather_cases; settle_cases.
    + settle_cases.
    + settle_cases.
  - destruct (VolatilityFrontRunStrategy._validate_transaction self target_tx "front_run"
                None)
      as [[[[|] d] sym]|e0] eqn:Hval; run.
    + destruct (Hus d sym eq_refl) as (Hh & Hhc).
      cbv delta [VolatilityFrontRunStrategy.analysis_message py_min py_max].
      argument_cases; try (intros; discriminate).
      gather_cases; settle_cases.
    + settle_cases.
    + settle_cases.
  - destruct (AdvancedFrontRunStrategy._validate_transaction self target_tx "front_run"
                None)
      as [[[[|] d] sym]|e0] eqn:Hval; run.
    + destruct (Hus d sym eq_refl) as (Hc & Hm & Hv & Hvc & Hcc & Hpc).
      cbv delta [AdvancedFrontRunStrategy.analysis_message
                 AdvancedFrontRunStrategy.is_bullish AdvancedFrontRunStrategy.is_volatile
                 AdvancedFrontRunStrategy.has_liquidity dict_get fmt_f].
      argument_cases; try (intros; discriminate).
      specialize (Hm _ eq_refl); destruct Hm as [Hm Hmc].
      gather_cases; settle_cases.
    + settle_cases.
    + settle_cases.
Qed.

(** C1, as stated, fails: an exception of the executor is not caught.  In
    the predictive variant of the usage example, with an executor that
    fails to broadcast, [execute] raises that failure. *)
Lemma executor_failure_escapes :
  result (execute np_example (Predictive predictive_failing_executor) example_transaction)
  = Raised (CollaboratorError "broadcast failed").
Proof. vm_compute. reflexivity. Qed.

(** C1 (amended).  No variant guards the calls of the validator, of the
    score reducer or of the executor: an exception that the validator
    raises, that the score reducer raises on the call the run made, or
    that the executor raises once the run called it, is the outcome of
    [execute].  A failure inside the gather step of the predictive,
    volatility and advanced variants (a fetcher that raises an exception
    when it is called or awaited or that delivers one, or a transaction
    without [to]) is caught and turned into the result [false].  On
    inputs whose fetched signals are usable, [execute] raises nothing but
    an exception of those three collaborators. *)
Theorem only_unguarded_collaborators_raise :
  forall (np : numpy) (s : strategy) (target_tx : transaction),
    (forall e, validation s target_tx = Raised e ->
               result (execute np s target_tx) = Raised e) /\
    (forall c e, In (CallScore c) (trace (execute np s target_tx)) ->
                 reducer_raises s c e ->
                 result (execute np s target_tx) = Raised e) /\
    (forall e, In (CallFrontRun target_tx) (trace (execute np s target_tx)) ->
               front_run s target_tx = Raised e ->
               result (execute np s target_tx) = Raised e) /\
    (forall d sym, validation s target_tx = Returned (true, d, sym) ->
                   gather_failed s target_tx sym = true ->
                   result (execute np s target_tx) = Returned false) /\
    ((forall d sym, validation s target_tx = Returned (true, d, sym) ->
                    signals_usable s target_tx sym) ->
     forall e, result (execute np s target_tx) = Raised e ->
               unguarded_failure s target_tx (trace (execute np s target_tx)) e).
Proof.
  intros np s tx. split; [|split; [|split; [|split]]].
  - intros e Hvalid. exact (proj1 (validator_exception_escapes np s tx e Hvalid)).
  - intros c e Hin Hraise. exact (proj1 (reducer_exception_escapes np s tx c e Hin Hraise)).
  - intros e Hin Hraise. exact (executor_exception_escapes np s tx e Hin Hraise).
  - intros d sym Hvalid Hfail. exact (proj1 (gather_failure_aborts np s tx d sym Hvalid Hfail)).
  - exact (usable_signals_raise_unguarded np s tx).
Qed.

Lemma only_unguarded_collaborators_witness :
  (validation (Aggressive aggressive_failing_validator) example_transaction
   = Raised (CollaboratorError "decoder failed") /\
   result (execute np_example (Aggressive aggressive_failing_validator)
             example_transaction) = Raised (CollaboratorError "decoder failed")) /\
  (In (CallScore (RiskScore example_transaction "MOCK_TOKEN" (Value five)))
      (trace (execute np_example
                (with_risk_reducer (Aggressive aggressive_strategy) failing_risk_reducer)
                example_transaction)) /\
   reducer_raises (with_risk_reducer (Aggressive aggressive_strategy) failing_risk_reducer)
     (RiskScore example_transaction "MOCK_TOKEN" (Value five))
     (CollaboratorError "risk model down") /\
   result (execute np_example
             (with_risk_reducer (Aggressive aggressive_strategy) failing_risk_reducer)
             example_transaction) = Raised (CollaboratorError "risk model down")) /\
  (In (CallFrontRun example_transaction)
      (trace (execute np_example (Predictive predictive_failing_executor)
                example_transaction)) /\
   front_run (Predictive predictive_failing_executor) example_transaction
   = Raised (CollaboratorError "broadcast failed") /\
   result (execute np_example (Predictive predictive_failing_executor)
             example_transaction) = Raised (CollaboratorError "broadcast failed")) /\
  (validation (Predictive predictive_failing_price_feed) example_transaction
   = Returned (true, ∅, "MOCK_TOKEN") /\
   gather_failed (Predictive predictive_failing_price_feed) example_transaction
     "MOCK_TOKEN" = true /\
   result (execute np_example (Predictive predictive_failing_price_feed)
             example_transaction) = Returned false) /\
  ((forall d sym,
      validation (Predictive predictive_failing_executor) example_transaction
      = Returned (true, d, sym) ->
      signals_usable (Predictive predictive_failing_executor) example_transaction sym) /\
   result (execute np_example (Predictive predictive_failing_executor)
             example_transaction) = Raised (CollaboratorError "broadcast failed") /\
   unguarded_failure (Predictive predictive_failing_executor) example_transaction
     (trace (execute np_example (Predictive predictive_failing_executor)
               example_transaction))
     (CollaboratorError "broadcast failed")).
Proof.
  assert (Hscore :
            In (CallScore (RiskScore example_transaction "MOCK_TOKEN" (Value five)))
              (trace (execute np_example
                        (with_risk_reducer (Aggressive aggressive_strategy)
                           failing_risk_reducer)
                        example_transaction))).
  { vm_compute. repeat first [left; reflexivity | right]. }
  assert (Hdispatch :
            In (CallFrontRun example_transaction)
              (trace (execute np_example (Predictive predictive_failing_executor)
                        example_transaction))).
  { vm_compute. repeat first [left; reflexivity | right]. }
  assert (Husable : forall d sym,
             validation (Predictive predictive_failing_executor) example_transaction
             = Returned (true, d, sym) ->
             signals_usable (Predictive predictive_failing_executor) example_transaction
               sym).
  { intros d sym Hvalid. repeat split; try reflexivity.
    intros c Hc. vm_compute in Hc. injection Hc as <-. reflexivity. }
  split; [|split; [|split; [|split]]].
  - split; [reflexivity|].
    apply (proj1 (only_unguarded_collaborators_raise np_example
                    (Aggressive aggressive_failing_validator) example_transaction)).
    reflexivity.
  - split; [exact Hscore|]. split; [reflexivity|].
    apply (proj1 (proj2 (only_unguarded_collaborators_raise np_example
                           (with_risk_reducer (Aggressive aggressive_strategy)
                              failing_risk_reducer)
                           example_transaction))
             (RiskScore example_transaction "MOCK_TOKEN" (Value five)));
      [exact Hscore | reflexivity].
  - split; [exact Hdispatch|]. split; [reflexivity|].
    apply (proj1 (proj2 (proj2 (only_unguarded_collaborators_raise np_example
                                  (Predictive predictive_failing_executor)
                                  example_transaction))));
      [exact Hdispatch | reflexivity].
  - split; [reflexivity|]. split; [reflexivity|].
    apply (proj1 (proj2 (proj2 (proj2 (only_unguarded_collaborators_raise np_example
                                         (Predictive predictive_failing_price_feed)
                                         example_transaction))))
             ∅ "MOCK_TOKEN"); reflexivity.
  - split; [exact Husable|]. split; [vm_compute; reflexivity|].
    apply (proj2 (proj2 (proj2 (proj2 (only_unguarded_collaborators_raise np_example
                                         (Predictive predictive_failing_executor)
                                         example_transaction))))
             Husable).
    vm_compute. reflexivity.
Defined.

(** ** The designed behaviour of the gather step and of the gate *)



Lemma aggressive_gate (self : AggressiveFrontRunStrategy.t) (target_tx : transaction)
    (d : decoded) (sym : string) (v : fetched float64) (score : float64)
    (mc : conditions) :
  AggressiveFrontRunStrategy._validate_transaction self target_tx "front_run"
    (Some (AggressiveFrontRunStrategy.min_value_eth self)) = Returned (true, d, sym) ->
  AggressiveFrontRunStrategy._get_price_change_24h self sym = Returned v ->
  AggressiveFrontRunStrategy._calculate_risk_score self target_tx sym v
    = Returned (score, mc) ->
  gated score (AggressiveFrontRunStrategy.risk_score_threshold self) target_tx
    (AggressiveFrontRunStrategy._front_run self)
    (AggressiveFrontRunStrategy.execute self target_tx).
Proof.
  intros Hvalid Hfetch Hscore. unfold gated. run.
  destruct (py_ge score (AggressiveFrontRunStrategy.risk_score_threshold self)); simpl; auto.
Qed.

Lemma predictive_gate (np : numpy) (self : PredictiveFrontRunStrategy.t)
    (target_tx : transaction) (d : decoded) (sym to : string) (p c score : float64)
    (mc : conditions) (hs : list float64) :
  PredictiveFrontRunStrategy._validate_transaction self target_tx "front_run" None
    = Returned (true, d, sym) ->
  target_tx !! "to" = Some to ->
  PredictiveFrontRunStrategy._predict_price_movement self sym = Returned (Value p) ->
  PredictiveFrontRunStrategy._get_real_time_price self sym = Returned (Value c) ->
  PredictiveFrontRunStrategy._check_market_conditions self to = Returned (Value mc) ->
  PredictiveFrontRunStrategy._get_token_price_data self sym "historical" 1
    = Returned (Value hs) ->
  py_eq c zero = false ->
  PredictiveFrontRunStrategy._calculate_opportunity_score self
    (fmul (fsub (fdiv p c) one) hundred)
    (match hs with [] => zero | _ :: _ => fdiv (std np hs) (mean np hs) end)
    (Value mc) (Value c) (Value hs) = Returned score ->
  gated score (PredictiveFrontRunStrategy.opportunity_score_threshold self) target_tx
    (PredictiveFrontRunStrategy._front_run self)
    (PredictiveFrontRunStrategy.execute np self target_tx).
Proof.
  intros Hvalid Hto Hp Hc Hmc Hhs Hnz Hscore. unfold gated.
  pose proof (price_change_pct_value p c Hnz) as Hdiv.
  unfold PredictiveFrontRunStrategy.execute, PredictiveFrontRunStrategy.analysis_message,
    PredictiveFrontRunStrategy.executing_message.
  destruct hs as [|x l];
    [pose proof (volatility_ratio_empty np) as Hvol
    |pose proof (volatility_ratio_nonempty np x l) as Hvol];
    run;
    destruct (py_ge score (PredictiveFrontRunStrategy.opportunity_score_threshold self));
    simpl; auto.
Qed.

Lemma volatility_gate (self : VolatilityFrontRunStrategy.t) (target_tx : transaction)
    (d : decoded) (sym to : string) (mc : fetched conditions) (cur : fetched float64)
    (x score : float64) (l : list float64) :
  VolatilityFrontRunStrategy._validate_transaction self target_tx "front_run" None
    = Returned (true, d, sym) ->
  target_tx !! "to" = Some to ->
  VolatilityFrontRunStrategy._check_market_conditions self to = Returned mc ->
  VolatilityFrontRunStrategy._get_real_time_price self sym = Returned cur ->
  VolatilityFrontRunStrategy._get_token_price_data self sym "historical" 1
    = Returned (Value (x :: l)) ->
  is_exception mc = false ->
  is_exception cur = false ->
  VolatilityFrontRunStrategy._calculate_volatility_score self (Value (x :: l)) cur mc
    = Returned score ->
  gated score (VolatilityFrontRunStrategy.volatility_score_threshold self) target_tx
    (VolatilityFrontRunStrategy._front_run self)
    (VolatilityFrontRunStrategy.execute self target_tx).
Proof.
  intros Hvalid Hto Hmc Hcur Hhs Emc Ecur Hscore. unfold gated.
  pose proof (volatility_analysis_message_ok sym score cur x l mc) as Hmsg.
  run.
  destruct (py_ge score (VolatilityFrontRunStrategy.volatility_score_threshold self));
    simpl; auto.
Qed.

Lemma advanced_gate (self : AdvancedFrontRunStrategy.t) (target_tx : transaction)
    (d : decoded) (sym to : string) (p c v score : float64) (m m' : conditions) :
  AdvancedFrontRunStrategy._validate_transaction self target_tx "front_run" None
    = Returned (true, d, sym) ->
  target_tx !! "to" = Some to ->
  AdvancedFrontRunStrategy._predict_price_movement self sym = Returned (Value p) ->
  AdvancedFrontRunStrategy._check_market_conditions self to = Returned (Value m) ->
  AdvancedFrontRunStrategy._get_real_time_price self sym = Returned (Value c) ->
  AdvancedFrontRunStrategy._get_token_volume self sym = Returned (Value v) ->
  py_eq c zero = false ->
  AdvancedFrontRunStrategy._calculate_risk_score self target_tx sym
    (Value (fmul (fsub (fdiv p c) one) hundred)) = Returned (score, m') ->
  gated score (AdvancedFrontRunStrategy.risk_score_threshold self) target_tx
    (AdvancedFrontRunStrategy._front_run self)
    (AdvancedFrontRunStrategy.execute self target_tx).
Proof.
  intros Hvalid Hto Hp Hm Hc Hv Hnz Hscore. unfold gated.
  pose proof (price_change_pct_value p c Hnz) as Hdiv.
  unfold AdvancedFrontRunStrategy.execute.
  run.
  destruct (py_ge score (AdvancedFrontRunStrategy.risk_score_threshold self));
    simpl; auto.
Qed.

(** The gate is inclusive, and closed strictly below the threshold. *)
Lemma gated_at_threshold (score thr : float64) (target_tx : transaction)
    (executor : transaction -> outcome bool) (r : run bool) :
  py_eq score thr = true ->
  gated score thr target_tx executor r ->
  result r = executor target_tx /\ front_run_calls (trace r) = [CallFrontRun target_tx].
Proof. intros Heq [Hr Ht]. rewrite (py_eq_ge _ _ Heq) in Hr, Ht. auto. Qed.

Lemma gated_below_threshold (score thr : float64) (target_tx : transaction)
    (executor : transaction -> outcome bool) (r : run bool) :
  py_lt score thr = true ->
  gated score thr target_tx executor r ->
  result r = Returned false /\ front_run_calls (trace r) = [].
Proof. intros Hlt [Hr Ht]. rewrite (py_lt_not_ge _ _ Hlt) in Hr, Ht. auto. Qed.

(** ** The usage example *)

(** With the empty configuration of the usage example every variant gates
    on its default threshold: 70, 60, 75 and 70. *)
Lemma default_thresholds :
  threshold (Aggressive aggressive_strategy) = seventy /\
  threshold (Predictive predictive_strategy) = sixty /\
  threshold (Volatility volatility_strategy) = seventy_five /\
  threshold (Advanced advanced_strategy) = seventy.
Proof. repeat split; reflexivity. Qed.

(** All four strategies of the usage example dispatch the front-run. *)
Lemma example_results :
  result (execute np_example (Aggressive aggressive_strategy) example_transaction)
    = Returned true /\
  result (execute np_example (Predictive predictive_strategy) example_transaction)
    = Returned true /\
  result (execute np_example (Volatility volatility_strategy) example_transaction)
    = Returned true /\
  result (execute np_example (Advanced advanced_strategy) example_transaction)
    = Returned true.
Proof. vm_compute. repeat split; reflexivity. Qed.

(** With the current price missing, the volatility variant of the example
    still dispatches the front-run. *)
Lemma volatility_null_price_dispatches :
  result (VolatilityFrontRunStrategy.execute volatility_null_price example_transaction)
    = Returned true /\
  front_run_calls
    (trace (VolatilityFrontRunStrategy.execute volatility_null_price example_transaction))
    = [CallFrontRun example_transaction].
Proof. vm_compute. split; reflexivity. Qed.

(** The change computed from the example prices lies exactly [5 * 2^-50]
    above 5.0. *)
Lemma five_plus_5ulp_offset :
  fsub five_plus_5ulp five
  = binary_normalize FloatOps.prec FloatOps.emax 5 (-50) false.
Proof. vm_compute. reflexivity. Qed.

(** * Further properties of the evaluators *)

(** ** The shape of every run *)

Ltac unfold_thresholds :=
  cbv delta [AggressiveFrontRunStrategy.min_value_eth
             AggressiveFrontRunStrategy.risk_score_threshold
             PredictiveFrontRunStrategy.opportunity_score_threshold
             VolatilityFrontRunStrategy.volatility_score_threshold
             AdvancedFrontRunStrategy.risk_score_threshold] in *.

Ltac solve_shape :=
  first
    [ left; reflexivity
    | right; split; [reflexivity|]; split; [done|]; split; [reflexivity|];
      eexists _, _; split; [reflexivity|]; split; [simpl; eauto | assumption] ].

(** A comparison with a NaN is false, on either side. *)
Lemma py_ge_nan_score (thr : float64) : py_ge S754_nan thr = false.
Proof. unfold py_ge, SFleb. rewrite (SFcompare_swap S754_nan thr). reflexivity. Qed.

Lemma py_ge_nan_threshold (score : float64) : py_ge score S754_nan = false.
Proof. reflexivity. Qed.

Lemma reducer_returns_functional (s : strategy) (c : score_call) (x y : float64) :
  reducer_returns s c x -> reducer_returns s c y -> x = y.
Proof.
  destruct s, c; simpl; try contradiction;
    try (intros [m Hx] [m' Hy]); try intros Hx Hy; congruence.
Qed.

Lemma in_score_calls (c : score_call) (tr : list event) :
  In (CallScore c) tr -> In (CallScore c) (score_calls tr).
Proof. intros H. apply filter_In. split; [exact H | reflexivity]. Qed.

(** Either the executor is not called, or it is called once, last, on the
    target transaction, after a reducer call whose score reached the
    threshold, and its outcome is the outcome of the run. *)
Lemma dispatch_shape (np : numpy) (s : strategy) (target_tx : transaction) :
  front_run_calls (trace (execute np s target_tx)) = [] \/
  (front_run_calls (trace (execute np s target_tx)) = [CallFrontRun target_tx] /\
   result (execute np s target_tx) = front_run s target_tx /\
   last (trace (execute np s target_tx)) = Some (CallFrontRun target_tx) /\
   exists c score,
     score_calls (trace (execute np s target_tx)) = [CallScore c] /\
     reducer_returns s c score /\
     py_ge score (threshold s) = true).
Proof.
  destruct s as [self|self|self|self]; run_cases; solve_shape.
Qed.

(** X1.  In every variant and on every input the validator is the first
    collaborator that is called, with the target transaction, the intent
    ["front_run"] and the minimum value of the variant; it is called once,
    and the score reducer is called at most once. *)
Theorem validation_called_first_and_once :
  forall (np : numpy) (s : strategy) (target_tx : transaction),
    exists rest,
      collaborator_calls (trace (execute np s target_tx))
      = CallValidate target_tx "front_run" (min_value s) :: rest /\
      validate_calls rest = [] /\
      (score_calls rest = [] \/ exists c, score_calls rest = [CallScore c]).
Proof.
  intros np s tx.
  destruct s as [self|self|self|self]; run_cases;
    (eexists; split; [reflexivity|]; split; [reflexivity|];
     first [left; reflexivity | right; eexists; reflexivity]).
Qed.

(** X2.  Once the validator has accepted the transaction, the fetchers of
    the variant are called in the order in which the code lists them, each
    at most once.  The gathering variants call every fetcher up to the
    first argument of [gather] that raises: a fetcher that fails while it
    is awaited stops none, a fetcher that raises when it is called stops
    the later ones, and so does a missing ["to"] field, after the fetchers
    that the code lists before [target_tx["to"]]. *)
Theorem fetchers_all_invoked :
  forall (np : numpy) (s : strategy) (target_tx : transaction) (d : decoded)
         (sym : string),
    validation s target_tx = Returned (true, d, sym) ->
    fetch_calls (trace (execute np s target_tx)) = expected_fetches s target_tx sym.
Proof.
  intros np s tx d sym Hvalid.
  destruct s as [self|self|self|self]; simpl in Hvalid |- *; run;
    argument_cases;
    repeat (case_match; simpl in *; simplify_eq); reflexivity.
Qed.

Lemma fetchers_all_invoked_witness :
  fetch_calls
    (trace (execute np_example (Predictive predictive_failing_price_feed)
              example_transaction))
  = [CallFetch predict_price_movement_func "MOCK_TOKEN";
     CallFetch get_real_time_price_func "MOCK_TOKEN";
     CallFetch check_market_conditions_func "0x7a250d5630B4cF539739dF2C5dAcb4c659F2488D";
     CallFetch get_token_price_data_func "MOCK_TOKEN"] /\
  fetch_calls
    (trace (execute np_example (Predictive predictive_unreachable_price_feed)
              example_transaction))
  = [CallFetch predict_price_movement_func "MOCK_TOKEN";
     CallFetch get_real_time_price_func "MOCK_TOKEN"] /\
  fetch_calls
    (trace (execute np_example (Advanced advanced_strategy)
              transaction_without_destination))
  = [CallFetch predict_price_movement_func "MOCK_TOKEN"].
Proof.
  split; [|split].
  - exact (fetchers_all_invoked np_example (Predictive predictive_failing_price_feed)
             example_transaction ∅ "MOCK_TOKEN" eq_refl).
  - exact (fetchers_all_invoked np_example
             (Predictive predictive_unreachable_price_feed)
             example_transaction ∅ "MOCK_TOKEN" eq_refl).
  - exact (fetchers_all_invoked np_example (Advanced advanced_strategy)
             transaction_without_destination ∅ "MOCK_TOKEN" eq_refl).
Defined.

(** X3.  After an accepted validation the collaborators are called in one
    order: the validator, the fetchers that X2 lists, the score reducer,
    the executor.  No call is interleaved with another kind, and the score
    reducer and the executor are each called at most once. *)
Theorem collaborator_calls_in_order :
  forall (np : numpy) (s : strategy) (target_tx : transaction) (d : decoded)
         (sym : string),
    validation s target_tx = Returned (true, d, sym) ->
    collaborator_calls (trace (execute np s target_tx))
    = CallValidate target_tx "front_run" (min_value s)
      :: expected_fetches s target_tx sym
      ++ score_calls (trace (execute np s target_tx))
      ++ front_run_calls (trace (execute np s target_tx)) /\
    (length (score_calls (trace (execute np s target_tx))) <= 1)%nat /\
    (length (front_run_calls (trace (execute np s target_tx))) <= 1)%nat.
Proof.
  intros np s tx d sym Hvalid.
  destruct s as [self|self|self|self]; simpl in Hvalid |- *; run;
    argument_cases;
    repeat (case_match; simpl in *; simplify_eq);
    (split; [reflexivity | split; repeat constructor]).
Qed.

Lemma collaborator_calls_in_order_witness :
  collaborator_calls
    (trace (execute np_example (Advanced advanced_strategy) example_transaction))
  = CallValidate example_transaction "front_run" (min_value (Advanced advanced_strategy))
    :: expected_fetches (Advanced advanced_strategy) example_transaction "MOCK_TOKEN"
    ++ score_calls
         (trace (execute np_example (Advanced advanced_strategy) example_transaction))
    ++ front_run_calls
         (trace (execute np_example (Advanced advanced_strategy) example_transaction)) /\
  (length (score_calls
             (trace (execute np_example (Advanced advanced_strategy)
                       example_transaction))) <= 1)%nat /\
  (length (front_run_calls
             (trace (execute np_example (Advanced advanced_strategy)
                       example_transaction))) <= 1)%nat.
Proof.
  apply (collaborator_calls_in_order np_example (Advanced advanced_strategy)
           example_transaction ∅ "MOCK_TOKEN").
  reflexivity.
Defined.

(** ** What a dispatch presupposes *)

(** X4.  The executor is never called without a score: if a run calls the
    executor, its reducer was called exactly once before, returned a
    score, and that score is at least the threshold of the variant. *)
Theorem dispatch_requires_passing_score :
  forall (np : numpy) (s : strategy) (target_tx : transaction),
    front_run_calls (trace (execute np s target_tx)) <> [] ->
    exists c score,
      score_calls (trace (execute np s target_tx)) = [CallScore c] /\
      reducer_returns s c score /\
      py_ge score (threshold s) = true.
Proof.
  intros np s tx Hcalls.
  destruct (dispatch_shape np s tx) as [Hnone | (_ & _ & _ & Hscore)];
    [contradiction | exact Hscore].
Qed.

Lemma dispatch_requires_passing_score_witness :
  exists c score,
    score_calls
      (trace (execute np_example (Volatility volatility_strategy) example_transaction))
    = [CallScore c] /\
    reducer_returns (Volatility volatility_strategy) c score /\
    py_ge score (threshold (Volatility volatility_strategy)) = true.
Proof.
  apply (dispatch_requires_passing_score np_example (Volatility volatility_strategy)
           example_transaction).
  vm_compute. discriminate.
Defined.

(** X5.  When the executor is called, it is called once, on the target
    transaction, as the last event of the run, and whatever it returns or
    raises is what [execute] returns or raises. *)
Theorem executor_outcome_is_final :
  forall (np : numpy) (s : strategy) (target_tx : transaction),
    front_run_calls (trace (execute np s target_tx)) <> [] ->
    front_run_calls (trace (execute np s target_tx)) = [CallFrontRun target_tx] /\
    result (execute np s target_tx) = front_run s target_tx /\
    last (trace (execute np s target_tx)) = Some (CallFrontRun target_tx).
Proof.
  intros np s tx Hcalls.
  destruct (dispatch_shape np s tx) as [Hnone | (Hone & Hres & Hlast & _)];
    [contradiction | auto].
Qed.

Lemma executor_outcome_is_final_witness :
  front_run_calls
    (trace (execute np_example (Predictive predictive_failing_executor)
              example_transaction))
  = [CallFrontRun example_transaction] /\
  result (execute np_example (Predictive predictive_failing_executor)
            example_transaction)
  = front_run (Predictive predictive_failing_executor) example_transaction /\
  last (trace (execute np_example (Predictive predictive_failing_executor)
                 example_transaction))
  = Some (CallFrontRun example_transaction).
Proof.
  apply (executor_outcome_is_final np_example (Predictive predictive_failing_executor)
           example_transaction).
  vm_compute. discriminate.
Defined.

(** X6.  A NaN never opens the gate: when the reducer returns NaN as the
    score, or when the configured threshold is NaN, the executor is not
    called. *)
Theorem nan_never_dispatches :
  forall (np : numpy) (s : strategy) (target_tx : transaction),
    (exists c, In (CallScore c) (trace (execute np s target_tx)) /\
               reducer_returns s c S754_nan)
    \/ threshold s = S754_nan ->
    front_run_calls (trace (execute np s target_tx)) = [].
Proof.
  intros np s tx Hnan.
  destruct (dispatch_shape np s tx)
    as [Hnone | (_ & _ & _ & c' & score & Hscore & Hret & Hge)]; [exact Hnone|].
  exfalso. destruct Hnan as [(c & Hin & Hc) | Hthr].
  - apply in_score_calls in Hin. rewrite Hscore in Hin.
    destruct Hin as [Heq | []]. injection Heq as ->.
    rewrite (reducer_returns_functional s c score S754_nan Hret Hc) in Hge.
    rewrite py_ge_nan_score in Hge. discriminate.
  - rewrite Hthr, py_ge_nan_threshold in Hge. discriminate.
Qed.

Lemma nan_never_dispatches_witness :
  front_run_calls
    (trace (execute np_example (Volatility volatility_nan_score) example_transaction))
  = [].
Proof.
  apply (nan_never_dispatches np_example (Volatility volatility_nan_score)
           example_transaction).
  left.
  exists (VolatilityScore (Value MockAPIConfig.historical) (Value ten)
            (Value {[ "bullish_trend" := true; "high_volatility" := true;
                      "low_liquidity" := false ]})).
  split; [|reflexivity].
  vm_compute. repeat first [left; reflexivity | right].
Defined.

(** Once the reducer has returned a score and the analysis record can be
    formatted, the run is the gate on that score. *)
Lemma score_gates_dispatch (np : numpy) (s : strategy) (target_tx : transaction)
    (c : score_call) (score : float64) :
  In (CallScore c) (trace (execute np s target_tx)) ->
  reducer_returns s c score ->
  analysis_formats s c ->
  gated score (threshold s) target_tx (front_run s) (execute np s target_tx).
Proof.
  revert target_tx c score. intros tx c score. unfold gated.
  destruct s as [self|self|self|self]; run_unfold; unfold_messages; simpl;
    argument_cases;
    repeat (case_match; simpl in *; simplify_eq);
    intros Hin Hret Hfmt; locate_score_call Hin; simpl in *;
    try (match type of Hret with ex _ => destruct Hret as [? Hret] end); simplify_eq;
    try (match type of Hfmt with ex _ => destruct Hfmt as (? & Hfmt) end);
    try (match type of Hfmt with ex _ => destruct Hfmt as (? & Hfmt) end);
    simplify_eq;
    use_gathered; try congruence; split_flags; try congruence;
    repeat match goal with H : py_ge _ _ = _ |- _ => rewrite H end; auto.
Qed.

(** X7.  Once the reducer has returned a score and the analysis record
    that follows can be formatted, the score alone decides: at or above
    the threshold the executor is called once on the target transaction
    and its outcome is the outcome of the run, below it the run returns
    [false] and the executor is not called.  In the aggressive and the
    predictive variant the record can always be formatted. *)
Theorem score_decides_dispatch :
  forall (np : numpy) (s : strategy) (target_tx : transaction) (c : score_call)
         (score : float64),
    In (CallScore c) (trace (execute np s target_tx)) ->
    reducer_returns s c score ->
    analysis_formats s c ->
    gated score (threshold s) target_tx (front_run s) (execute np s target_tx).
Proof.
  intros np s tx c score Hin Hret Hfmt.
  exact (score_gates_dispatch np s tx c score Hin Hret Hfmt).
Qed.

Lemma score_decides_dispatch_witness :
  gated seventy (threshold (Predictive predictive_strategy)) example_transaction
    (front_run (Predictive predictive_strategy))
    (execute np_example (Predictive predictive_strategy) example_transaction).
Proof.
  apply (score_decides_dispatch np_example (Predictive predictive_strategy)
           example_transaction
           (OpportunityScore
              (fmul (fsub (fdiv ten_and_a_half ten) one) hundred)
              (fdiv (std np_example MockAPIConfig.historical)
                 (mean np_example MockAPIConfig.historical))
              (Value {[ "bullish_trend" := true; "high_volatility" := true;
                        "low_liquidity" := false ]})
              (Value ten) (Value MockAPIConfig.historical))
           seventy).
  - vm_compute. repeat first [left; reflexivity | right].
  - reflexivity.
  - exact I.
Defined.

(** ** The exits of the gather step *)

(** X8.  In the predictive, volatility and advanced variants an exception
    raised while the arguments of [gather] are built (a fetcher that raises
    when it is called, or [target_tx["to"]] on a transaction without that
    field) ends the run with [false]: the fetchers that the code lists
    before the failing argument have been called, the later ones have not,
    nothing is scored or dispatched, and the only records are the opening
    one and an error record that carries the exception. *)
Theorem missing_destination_aborts :
  forall (np : numpy) (s : strategy) (target_tx : transaction) (d : decoded)
         (sym : string) (e : exn),
    validation s target_tx = Returned (true, d, sym) ->
    argument_failure s target_tx sym = Some e ->
    trace (execute np s target_tx)
    = ([LogRecord DEBUG Initiating; CallValidate target_tx "front_run" None]
       ++ expected_fetches s target_tx sym
       ++ [LogRecord ERROR (GatherError e)])%list /\
    result (execute np s target_tx) = Returned false.
Proof.
  intros np s tx d sym e Hvalid Hfail.
  destruct s as [self|self|self|self];
    unfold argument_failure in Hfail; simpl in Hvalid, Hfail |- *;
    [discriminate| | |];
    run; argument_cases; simpl in *; simplify_eq; split; reflexivity.
Qed.

Lemma missing_destination_aborts_witness :
  (trace (execute np_example (Advanced advanced_strategy) transaction_without_destination)
   = [LogRecord DEBUG Initiating;
      CallValidate transaction_without_destination "front_run" None;
      CallFetch predict_price_movement_func "MOCK_TOKEN";
      LogRecord ERROR (GatherError (KeyError "to"))] /\
   result (execute np_example (Advanced advanced_strategy)
             transaction_without_destination) = Returned false) /\
  (trace (execute np_example (Volatility volatility_strategy)
            transaction_without_destination)
   = [LogRecord DEBUG Initiating;
      CallValidate transaction_without_destination "front_run" None;
      LogRecord ERROR (GatherError (KeyError "to"))] /\
   result (execute np_example (Volatility volatility_strategy)
             transaction_without_destination) = Returned false) /\
  (trace (execute np_example (Predictive predictive_unreachable_price_feed)
            example_transaction)
   = [LogRecord DEBUG Initiating;
      CallValidate example_transaction "front_run" None;
      CallFetch predict_price_movement_func "MOCK_TOKEN";
      CallFetch get_real_time_price_func "MOCK_TOKEN";
      LogRecord ERROR (GatherError (CollaboratorError "no session"))] /\
   result (execute np_example (Predictive predictive_unreachable_price_feed)
             example_transaction) = Returned false).
Proof.
  split; [|split].
  - exact (missing_destination_aborts np_example (Advanced advanced_strategy)
             transaction_without_destination ∅ "MOCK_TOKEN" (KeyError "to")
             eq_refl eq_refl).
  - exact (missing_destination_aborts np_example (Volatility volatility_strategy)
             transaction_without_destination ∅ "MOCK_TOKEN" (KeyError "to")
             eq_refl eq_refl).
  - exact (missing_destination_aborts np_example
             (Predictive predictive_unreachable_price_feed)
             example_transaction ∅ "MOCK_TOKEN" (CollaboratorError "no session")
             eq_refl eq_refl).
Defined.

(** X9.  In the predictive, volatility and advanced variants, when the
    arguments of [gather] were built and one of the gathered fetchers
    raised an exception while it was awaited, or delivered one, the run
    returns [false]; all fetchers of the variant have been called, neither
    the reducer nor the executor is, and one warning record is emitted.  A
    cancelled fetcher is no such failure. *)
Theorem fetch_failure_aborts_with_warning :
  forall (np : numpy) (s : strategy) (target_tx : transaction) (d : decoded)
         (sym : string),
    validation s target_tx = Returned (true, d, sym) ->
    argument_failure s target_tx sym = None ->
    gather_failed s target_tx sym = true ->
    result (execute np s target_tx) = Returned false /\
    collaborator_calls (trace (execute np s target_tx))
    = CallValidate target_tx "front_run" None :: expected_fetches s target_tx sym /\
    log_records (trace (execute np s target_tx))
    = [LogRecord DEBUG Initiating; LogRecord WARNING GatherIncomplete].
Proof.
  intros np s tx d sym Hvalid Hargs Hfail.
  destruct s as [self|self|self|self];
    unfold argument_failure in Hargs; simpl in Hvalid |- *;
    [discriminate Hfail| | |];
    run; argument_cases; use_gathered; try discriminate Hargs;
    rewrite Hfail; simpl; auto.
Qed.

Lemma fetch_failure_aborts_witness :
  result (execute np_example (Predictive predictive_failing_price_feed)
            example_transaction) = Returned false /\
  collaborator_calls
    (trace (execute np_example (Predictive predictive_failing_price_feed)
              example_transaction))
  = CallValidate example_transaction "front_run" None
    :: expected_fetches (Predictive predictive_failing_price_feed) example_transaction
         "MOCK_TOKEN" /\
  log_records
    (trace (execute np_example (Predictive predictive_failing_price_feed)
              example_transaction))
  = [LogRecord DEBUG Initiating; LogRecord WARNING GatherIncomplete].
Proof.
  apply (fetch_failure_aborts_with_warning np_example
           (Predictive predictive_failing_price_feed) example_transaction ∅
           "MOCK_TOKEN"); reflexivity.
Defined.

(** X10.  In the predictive and the advanced variant, when no gathered
    fetcher failed but the current or the predicted price is [None], the
    run returns [false] after the fetchers, without a score and without a
    dispatch, and emits one debug record about the missing price. *)
Theorem missing_price_aborts :
  forall (np : numpy) (s : strategy) (target_tx : transaction) (d : decoded)
         (sym : string),
    validation s target_tx = Returned (true, d, sym) ->
    gather_failed s target_tx sym = false ->
    price_missing s sym = true ->
    result (execute np s target_tx) = Returned false /\
    collaborator_calls (trace (execute np s target_tx))
    = CallValidate target_tx "front_run" None :: expected_fetches s target_tx sym /\
    log_records (trace (execute np s target_tx))
    = [LogRecord DEBUG Initiating; LogRecord DEBUG MissingPriceData].
Proof.
  intros np s tx d sym Hvalid Hgather Hnone.
  destruct s as [self|self|self|self]; simpl in Hvalid, Hnone |- *;
    try discriminate;
    run; argument_cases; use_gathered; try refute_no_failure Hgather;
    rewrite Hgather; simpl; rewrite Hnone; simpl; auto.
Qed.

Lemma missing_price_aborts_witness :
  result (execute np_example (Predictive predictive_null_price) example_transaction)
  = Returned false /\
  collaborator_calls
    (trace (execute np_example (Predictive predictive_null_price) example_transaction))
  = CallValidate example_transaction "front_run" None
    :: expected_fetches (Predictive predictive_null_price) example_transaction
         "MOCK_TOKEN" /\
  log_records
    (trace (execute np_example (Predictive predictive_null_price) example_transaction))
  = [LogRecord DEBUG Initiating; LogRecord DEBUG MissingPriceData].
Proof.
  apply (missing_price_aborts np_example (Predictive predictive_null_price)
           example_transaction ∅ "MOCK_TOKEN"); reflexivity.
Defined.

(** ** A true result certifies the dispatch *)




(** ** Failures of the unguarded collaborators *)

(** X11.  An exception of the validator leaves every variant as it is: the
    run raises it, and the validation call is the only collaborator
    call. *)
Theorem validator_failure_propagates :
  forall (np : numpy) (s : strategy) (target_tx : transaction) (e : exn),
    validation s target_tx = Raised e ->
    result (execute np s target_tx) = Raised e /\
    collaborator_calls (trace (execute np s target_tx))
    = [CallValidate target_tx "front_run" (min_value s)].
Proof.
  intros np s tx e Hvalid.
  exact (validator_exception_escapes np s tx e Hvalid).
Qed.

Lemma validator_failure_propagates_witness :
  result (execute np_example (Aggressive aggressive_failing_validator)
            example_transaction) = Raised (CollaboratorError "decoder failed") /\
  collaborator_calls
    (trace (execute np_example (Aggressive aggressive_failing_validator)
              example_transaction))
  = [CallValidate example_transaction "front_run"
       (min_value (Aggressive aggressive_failing_validator))].
Proof.
  apply (validator_failure_propagates np_example
           (Aggressive aggressive_failing_validator) example_transaction
           (CollaboratorError "decoder failed")).
  reflexivity.
Defined.

(** X12.  An exception of the score reducer leaves every variant as it is:
    the run raises it and the executor is not called. *)
Theorem reducer_failure_propagates :
  forall (np : numpy) (s : strategy) (target_tx : transaction) (c : score_call)
         (e : exn),
    In (CallScore c) (trace (execute np s target_tx)) ->
    reducer_raises s c e ->
    result (execute np s target_tx) = Raised e /\
    front_run_calls (trace (execute np s target_tx)) = [].
Proof.
  intros np s tx c e Hin Hraise.
  exact (reducer_exception_escapes np s tx c e Hin Hraise).
Qed.

Lemma reducer_failure_propagates_witness :
  result (execute np_example
            (with_risk_reducer (Aggressive aggressive_strategy) failing_risk_reducer)
            example_transaction) = Raised (CollaboratorError "risk model down") /\
  front_run_calls
    (trace (execute np_example
              (with_risk_reducer (Aggressive aggressive_strategy) failing_risk_reducer)
              example_transaction)) = [].
Proof.
  apply (reducer_failure_propagates np_example
           (with_risk_reducer (Aggressive aggressive_strategy) failing_risk_reducer)
           example_transaction
           (RiskScore example_transaction "MOCK_TOKEN" (Value five))
           (CollaboratorError "risk model down")).
  - vm_compute. repeat first [left; reflexivity | right].
  - reflexivity.
Defined.

(** ** What the decision does not depend on *)

(** X13.  The market conditions that the risk reducer returns next to the
    score are never used: two reducers that agree on the score (or on the
    exception) give the aggressive and the advanced variant the same run,
    event for event. *)
Theorem reducer_conditions_are_ignored :
  forall (np : numpy) (s : strategy)
         (f g : transaction -> string -> fetched float64 -> outcome (float64 * conditions))
         (target_tx : transaction),
    (forall tx sym pc, score_part (f tx sym pc) = score_part (g tx sym pc)) ->
    execute np (with_risk_reducer s f) target_tx
    = execute np (with_risk_reducer s g) target_tx.
Proof.
  intros np s f g tx Hfg.
  destruct s as [self|self|self|self]; try reflexivity;
    run_unfold; unfold_messages; unfold_thresholds; simpl;
    (repeat (case_match; simpl in *; simplify_eq);
     repeat match goal with
            | Hf : f ?a ?b ?c = _, Hg : g ?a ?b ?c = _ |- _ =>
                let H := fresh in
                pose proof (Hfg a b c) as H; rewrite Hf, Hg in H; simpl in H;
                clear Hf Hg; simplify_eq
            end;
     try congruence; try reflexivity).
Qed.

Lemma reducer_conditions_are_ignored_witness :
  execute np_example
    (with_risk_reducer (Advanced advanced_strategy) MockTransactionCore._calculate_risk_score)
    example_transaction
  = execute np_example
      (with_risk_reducer (Advanced advanced_strategy) bearish_risk_reducer)
      example_transaction.
Proof.
  apply (reducer_conditions_are_ignored np_example (Advanced advanced_strategy)
           MockTransactionCore._calculate_risk_score bearish_risk_reducer
           example_transaction).
  intros tx sym pc. reflexivity.
Defined.

(** X14.  The advanced variant fetches the market conditions and the
    volume, but only logs them: whatever values these two fetchers
    deliver, the result of the run and its collaborator calls are the
    same. *)
Theorem advanced_decision_ignores_conditions_and_volume :
  forall (self : AdvancedFrontRunStrategy.t)
         (check1 check2 : string -> called (fetched conditions))
         (volume1 volume2 : string -> called (fetched float64))
         (target_tx : transaction) (d : decoded) (sym to : string)
         (m1 m2 : conditions) (v1 v2 : float64),
    AdvancedFrontRunStrategy._validate_transaction self target_tx "front_run" None
      = Returned (true, d, sym) ->
    target_tx !! "to" = Some to ->
    check1 to = Returned (Value m1) ->
    check2 to = Returned (Value m2) ->
    volume1 sym = Returned (Value v1) ->
    volume2 sym = Returned (Value v2) ->
    result (AdvancedFrontRunStrategy.execute
              (with_conditions_and_volume self check1 volume1) target_tx)
    = result (AdvancedFrontRunStrategy.execute
                (with_conditions_and_volume self check2 volume2) target_tx) /\
    collaborator_calls
      (trace (AdvancedFrontRunStrategy.execute
                (with_conditions_and_volume self check1 volume1) target_tx))
    = collaborator_calls
        (trace (AdvancedFrontRunStrategy.execute
                  (with_conditions_and_volume self check2 volume2) target_tx)).
Proof.
  intros self check1 check2 volume1 volume2 tx d sym to m1 m2 v1 v2
    Hvalid Hto Hc1 Hc2 Hv1 Hv2.
  unfold with_conditions_and_volume.
  run_unfold; unfold_messages; unfold_thresholds; simpl.
  repeat (simpl; run_step). simpl.
  argument_cases;
    repeat (simpl; run_step); simpl;
    gather_cases; repeat (case_match; simpl in *; simplify_eq); split; reflexivity.
Qed.

Lemma advanced_decision_witness :
  result (AdvancedFrontRunStrategy.execute
            (with_conditions_and_volume advanced_strategy
               MockMarketMonitor.check_market_conditions MockAPIConfig.get_token_volume)
            example_transaction)
  = result (AdvancedFrontRunStrategy.execute
              (with_conditions_and_volume advanced_strategy
                 (fun _ => Returned (Value conditions_without_liquidity))
                 (fun _ => Returned (Value zero)))
              example_transaction) /\
  collaborator_calls
    (trace (AdvancedFrontRunStrategy.execute
              (with_conditions_and_volume advanced_strategy
                 MockMarketMonitor.check_market_conditions MockAPIConfig.get_token_volume)
              example_transaction))
  = collaborator_calls
      (trace (AdvancedFrontRunStrategy.execute
                (with_conditions_and_volume advanced_strategy
                   (fun _ => Returned (Value conditions_without_liquidity))
                   (fun _ => Returned (Value zero)))
                example_transaction)).
Proof.
  apply (advanced_decision_ignores_conditions_and_volume advanced_strategy
           MockMarketMonitor.check_market_conditions
           (fun _ => Returned (Value conditions_without_liquidity))
           MockAPIConfig.get_token_volume (fun _ => Returned (Value zero))
           example_transaction ∅ "MOCK_TOKEN"
           "0x7a250d5630B4cF539739dF2C5dAcb4c659F2488D"
           {[ "bullish_trend" := true; "high_volatility" := true;
              "low_liquidity" := false ]}
           conditions_without_liquidity million zero); reflexivity.
Defined.

(** X15.  The constructor reads the configuration by key only: a strategy
    built with another configuration that agrees on the keys of its
    variant runs identically, so the keys of the other variants and any
    further entries have no effect. *)
Theorem configuration_is_read_by_key :
  forall (np : numpy) (s : strategy) (c : configuration) (target_tx : transaction),
    (forall k, In k (config_keys s) -> c !! k = config_of s !! k) ->
    execute np (with_config s c) target_tx = execute np s target_tx.
Proof.
  intros np s c tx Hkeys.
  destruct s as [self|self|self|self]; simpl in Hkeys |- *.
  - unfold AggressiveFrontRunStrategy.execute, AggressiveFrontRunStrategy.min_value_eth,
      AggressiveFrontRunStrategy.risk_score_threshold, config_get; simpl.
    rewrite !Hkeys by (simpl; auto). reflexivity.
  - unfold PredictiveFrontRunStrategy.execute,
      PredictiveFrontRunStrategy.opportunity_score_threshold, config_get; simpl.
    rewrite !Hkeys by (simpl; auto). reflexivity.
  - unfold VolatilityFrontRunStrategy.execute,
      VolatilityFrontRunStrategy.volatility_score_threshold, config_get; simpl.
    rewrite !Hkeys by (simpl; auto). reflexivity.
  - unfold AdvancedFrontRunStrategy.execute,
      AdvancedFrontRunStrategy.risk_score_threshold, config_get; simpl.
    rewrite !Hkeys by (simpl; auto). reflexivity.
Qed.

Lemma configuration_is_read_by_key_witness :
  execute np_example (with_config (Volatility volatility_strategy) foreign_configuration)
    example_transaction
  = execute np_example (Volatility volatility_strategy) example_transaction.
Proof.
  apply (configuration_is_read_by_key np_example (Volatility volatility_strategy)
           foreign_configuration example_transaction).
  intros k [<- | []]. reflexivity.
Defined.

(** ** Null signals that are not tested for *)

(** X16.  The predictive variant treats a historical series that is [None]
    like an empty one: the volatility ratio it passes to the reducer is
    zero, and the reducer is called with the null series; null market
    conditions are passed on unchanged as well. *)
Theorem predictive_scores_null_history_as_empty :
  forall (np : numpy) (self : PredictiveFrontRunStrategy.t) (target_tx : transaction)
         (d : decoded) (sym to : string) (p c : float64) (mc : fetched conditions)
         (hs : fetched (list float64)),
    PredictiveFrontRunStrategy._validate_transaction self target_tx "front_run" None
      = Returned (true, d, sym) ->
    target_tx !! "to" = Some to ->
    PredictiveFrontRunStrategy._predict_price_movement self sym = Returned (Value p) ->
    PredictiveFrontRunStrategy._get_real_time_price self sym = Returned (Value c) ->
    PredictiveFrontRunStrategy._check_market_conditions self to = Returned mc ->
    PredictiveFrontRunStrategy._get_token_price_data self sym "historical" 1
      = Returned hs ->
    is_exception mc = false ->
    is_exception hs = false ->
    is_cancelled hs = false ->
    py_eq c zero = false ->
    score_calls (trace (PredictiveFrontRunStrategy.execute np self target_tx))
    = [CallScore
         (OpportunityScore
            (fmul (fsub (fdiv p c) one) hundred)
            (match hs with
             | Value (x :: l) => fdiv (std np (x :: l)) (mean np (x :: l))
             | _ => zero
             end)
            mc (Value c) hs)].
Proof.
  intros np self tx d sym to p c mc hs Hvalid Hto Hp Hc Hmc Hhs Emc Ehs Chs Hnz.
  pose proof (price_change_pct_value p c Hnz) as Hdiv.
  destruct hs as [[|x l]| |e|]; simpl in Ehs, Chs; try discriminate;
    destruct mc as [m| |e|]; simpl in Emc; try discriminate;
    unfold PredictiveFrontRunStrategy.execute; unfold_messages;
    run; repeat (case_match; simpl); reflexivity.
Qed.

Lemma predictive_null_history_witness :
  score_calls
    (trace (PredictiveFrontRunStrategy.execute np_example predictive_null_history
              example_transaction))
  = [CallScore
       (OpportunityScore
          (fmul (fsub (fdiv ten_and_a_half ten) one) hundred)
          zero
          (Value {[ "bullish_trend" := true; "high_volatility" := true;
                    "low_liquidity" := false ]})
          (Value ten) PyNone)].
Proof.
  apply (predictive_scores_null_history_as_empty np_example predictive_null_history
           example_transaction ∅ "MOCK_TOKEN"
           "0x7a250d5630B4cF539739dF2C5dAcb4c659F2488D" ten_and_a_half ten
           (Value {[ "bullish_trend" := true; "high_volatility" := true;
                     "low_liquidity" := false ]})
           PyNone); reflexivity.
Defined.

(** X17.  In the advanced variant market conditions that come back as
    [None] are not caught by the null test: reading the first flag raises
    [AttributeError], before the reducer is called. *)
Theorem advanced_null_conditions_raise :
  forall (self : AdvancedFrontRunStrategy.t) (target_tx : transaction) (d : decoded)
         (sym to : string) (p c : float64) (v : fetched float64),
    AdvancedFrontRunStrategy._validate_transaction self target_tx "front_run" None
      = Returned (true, d, sym) ->
    target_tx !! "to" = Some to ->
    AdvancedFrontRunStrategy._predict_price_movement self sym = Returned (Value p) ->
    AdvancedFrontRunStrategy._check_market_conditions self to = Returned PyNone ->
    AdvancedFrontRunStrategy._get_real_time_price self sym = Returned (Value c) ->
    AdvancedFrontRunStrategy._get_token_volume self sym = Returned v ->
    is_exception v = false ->
    py_eq c zero = false ->
    result (AdvancedFrontRunStrategy.execute self target_tx) = Raised AttributeError /\
    score_calls (trace (AdvancedFrontRunStrategy.execute self target_tx)) = [] /\
    front_run_calls (trace (AdvancedFrontRunStrategy.execute self target_tx)) = [].
Proof.
  intros self tx d sym to p c v Hvalid Hto Hp Hm Hc Hv Ev Hnz.
  pose proof (price_change_pct_value p c Hnz) as Hdiv.
  destruct v as [x| |e|]; simpl in Ev; try discriminate; run; auto.
Qed.

Lemma advanced_null_conditions_witness :
  result (AdvancedFrontRunStrategy.execute advanced_null_conditions example_transaction)
  = Raised AttributeError /\
  score_calls
    (trace (AdvancedFrontRunStrategy.execute advanced_null_conditions
              example_transaction)) = [] /\
  front_run_calls
    (trace (AdvancedFrontRunStrategy.execute advanced_null_conditions
              example_transaction)) = [].
Proof.
  apply (advanced_null_conditions_raise advanced_null_conditions example_transaction ∅
           "MOCK_TOKEN" "0x7a250d5630B4cF539739dF2C5dAcb4c659F2488D" ten_and_a_half ten
           (Value million)); reflexivity.
Defined.

(** X18.  In the advanced variant a volume that comes back as [None] lets
    the reducer be called, but the analysis record cannot format it: the
    run raises [TypeError] and the executor is not called, whatever the
    score. *)
Theorem advanced_null_volume_blocks_dispatch :
  forall (self : AdvancedFrontRunStrategy.t) (target_tx : transaction) (d : decoded)
         (sym to : string) (p c score : float64) (m m' : conditions),
    AdvancedFrontRunStrategy._validate_transaction self target_tx "front_run" None
      = Returned (true, d, sym) ->
    target_tx !! "to" = Some to ->
    AdvancedFrontRunStrategy._predict_price_movement self sym = Returned (Value p) ->
    AdvancedFrontRunStrategy._check_market_conditions self to = Returned (Value m) ->
    AdvancedFrontRunStrategy._get_real_time_price self sym = Returned (Value c) ->
    AdvancedFrontRunStrategy._get_token_volume self sym = Returned PyNone ->
    py_eq c zero = false ->
    AdvancedFrontRunStrategy._calculate_risk_score self target_tx sym
      (Value (fmul (fsub (fdiv p c) one) hundred)) = Returned (score, m') ->
    result (AdvancedFrontRunStrategy.execute self target_tx) = Raised TypeError /\
    score_calls (trace (AdvancedFrontRunStrategy.execute self target_tx))
    = [CallScore (RiskScore target_tx sym (Value (fmul (fsub (fdiv p c) one) hundred)))] /\
    front_run_calls (trace (AdvancedFrontRunStrategy.execute self target_tx)) = [].
Proof.
  intros self tx d sym to p c score m m' Hvalid Hto Hp Hm Hc Hv Hnz Hscore.
  pose proof (price_change_pct_value p c Hnz) as Hdiv.
  unfold AdvancedFrontRunStrategy.execute; unfold_messages. run. auto.
Qed.

Lemma advanced_null_volume_witness :
  result (AdvancedFrontRunStrategy.execute advanced_null_volume example_transaction)
  = Raised TypeError /\
  score_calls
    (trace (AdvancedFrontRunStrategy.execute advanced_null_volume example_transaction))
  = [CallScore
       (RiskScore example_transaction "MOCK_TOKEN"
          (Value (fmul (fsub (fdiv ten_and_a_half ten) one) hundred)))] /\
  front_run_calls
    (trace (AdvancedFrontRunStrategy.execute advanced_null_volume example_transaction))
  = [].
Proof.
  apply (advanced_null_volume_blocks_dispatch advanced_null_volume example_transaction ∅
           "MOCK_TOKEN" "0x7a250d5630B4cF539739dF2C5dAcb4c659F2488D" ten_and_a_half ten
           eighty
           {[ "bullish_trend" := true; "high_volatility" := true;
              "low_liquidity" := false ]}
           {[ "bullish_trend" := true ]}); reflexivity.
Defined.

(** X19.  In the volatility variant a historical series that comes back
    as [None] is passed to the reducer, and the analysis record then
    fails on [min(None)]: the run raises [TypeError] and the executor is
    not called, whatever the score. *)
Theorem volatility_null_history_blocks_dispatch :
  forall (self : VolatilityFrontRunStrategy.t) (target_tx : transaction) (d : decoded)
         (sym to : string) (mc : fetched conditions) (cur : fetched float64)
         (score : float64),
    VolatilityFrontRunStrategy._validate_transaction self target_tx "front_run" None
      = Returned (true, d, sym) ->
    target_tx !! "to" = Some to ->
    VolatilityFrontRunStrategy._check_market_conditions self to = Returned mc ->
    VolatilityFrontRunStrategy._get_real_time_price self sym = Returned cur ->
    VolatilityFrontRunStrategy._get_token_price_data self sym "historical" 1
      = Returned PyNone ->
    is_exception mc = false ->
    is_exception cur = false ->
    VolatilityFrontRunStrategy._calculate_volatility_score self PyNone cur mc
      = Returned score ->
    result (VolatilityFrontRunStrategy.execute self target_tx) = Raised TypeError /\
    score_calls (trace (VolatilityFrontRunStrategy.execute self target_tx))
    = [CallScore (VolatilityScore PyNone cur mc)] /\
    front_run_calls (trace (VolatilityFrontRunStrategy.execute self target_tx)) = [].
Proof.
  intros self tx d sym to mc cur score Hvalid Hto Hmc Hcur Hhs Emc Ecur Hscore.
  unfold VolatilityFrontRunStrategy.execute; unfold_messages. run. auto.
Qed.

Lemma volatility_null_history_witness :
  result (VolatilityFrontRunStrategy.execute volatility_null_history example_transaction)
  = Raised TypeError /\
  score_calls
    (trace (VolatilityFrontRunStrategy.execute volatility_null_history
              example_transaction))
  = [CallScore
       (VolatilityScore PyNone (Value ten)
          (Value {[ "bullish_trend" := true; "high_volatility" := true;
                    "low_liquidity" := false ]}))] /\
  front_run_calls
    (trace (VolatilityFrontRunStrategy.execute volatility_null_history
              example_transaction)) = [].
Proof.
  apply (volatility_null_history_blocks_dispatch volatility_null_history
           example_transaction ∅ "MOCK_TOKEN"
           "0x7a250d5630B4cF539739dF2C5dAcb4c659F2488D"
           (Value {[ "bullish_trend" := true; "high_volatility" := true;
                     "low_liquidity" := false ]})
           (Value ten) eighty_five); reflexivity.
Defined.

(** X20.  The aggressive variant does not inspect what its fetcher
    returns: the value, [None] and exception instances included, is handed
    to the risk reducer as the price change.  Apart from the opening
    record the variant logs only when it dispatches. *)
Theorem aggressive_scores_unchecked_signal :
  forall (self : AggressiveFrontRunStrategy.t) (target_tx : transaction) (d : decoded)
         (sym : string) (v : fetched float64),
    AggressiveFrontRunStrategy._validate_transaction self target_tx "front_run"
      (Some (AggressiveFrontRunStrategy.min_value_eth self)) = Returned (true, d, sym) ->
    AggressiveFrontRunStrategy._get_price_change_24h self sym = Returned v ->
    score_calls (trace (AggressiveFrontRunStrategy.execute self target_tx))
    = [CallScore (RiskScore target_tx sym v)] /\
    log_records (trace (AggressiveFrontRunStrategy.execute self target_tx))
    = LogRecord DEBUG Initiating
      :: match AggressiveFrontRunStrategy._calculate_risk_score self target_tx sym v with
         | Returned (score, _) =>
             if py_ge score (AggressiveFrontRunStrategy.risk_score_threshold self)
             then [LogRecord DEBUG (ExecutingAggressive score)] else []
         | Raised _ => []
         end.
Proof.
  intros self tx d sym v Hvalid Hfetch. run.
  repeat (case_match; simpl in *; simplify_eq); split; reflexivity.
Qed.

Lemma aggressive_null_signal_witness :
  score_calls
    (trace (AggressiveFrontRunStrategy.execute aggressive_null_signal example_transaction))
  = [CallScore (RiskScore example_transaction "MOCK_TOKEN" PyNone)] /\
  log_records
    (trace (AggressiveFrontRunStrategy.execute aggressive_null_signal example_transaction))
  = LogRecord DEBUG Initiating
    :: match AggressiveFrontRunStrategy._calculate_risk_score aggressive_null_signal
               example_transaction "MOCK_TOKEN" PyNone with
       | Returned (score, _) =>
           if py_ge score
                (AggressiveFrontRunStrategy.risk_score_threshold aggressive_null_signal)
           then [LogRecord DEBUG (ExecutingAggressive score)] else []
       | Raised _ => []
       end.
Proof.
  apply (aggressive_scores_unchecked_signal aggressive_null_signal example_transaction ∅
           "MOCK_TOKEN" PyNone); reflexivity.
Defined.

(** ** Cancelled fetchers and missing flags *)

(** X21.  A fetcher that is cancelled while [gather] awaits it is not seen
    as a failure: [gather] stores a [CancelledError], which is no instance
    of [Exception].  In the volatility variant a cancelled price fetcher
    does not fail the gather step, and the score reducer is called with
    the [CancelledError] as the current price. *)
Theorem volatility_scores_cancelled_price :
  forall (self : VolatilityFrontRunStrategy.t) (target_tx : transaction) (d : decoded)
         (sym to : string) (mc : conditions) (hs : list float64),
    VolatilityFrontRunStrategy._validate_transaction self target_tx "front_run" None
      = Returned (true, d, sym) ->
    target_tx !! "to" = Some to ->
    VolatilityFrontRunStrategy._check_market_conditions self to = Returned (Value mc) ->
    VolatilityFrontRunStrategy._get_real_time_price self sym = Returns EndsCancelled ->
    VolatilityFrontRunStrategy._get_token_price_data self sym "historical" 1
      = Returned (Value hs) ->
    gather_failed (Volatility self) target_tx sym = false /\
    score_calls (trace (VolatilityFrontRunStrategy.execute self target_tx))
    = [CallScore (VolatilityScore (Value hs) CancelledInstance (Value mc))].
Proof.
  intros self tx d sym to mc hs Hvalid Hto Hmc Hcur Hhist. split.
  - simpl. rewrite Hto, Hmc, Hcur, Hhist. reflexivity.
  - run. repeat (case_match; simpl); reflexivity.
Qed.

Lemma volatility_cancelled_price_witness :
  gather_failed (Volatility volatility_cancelled_price) example_transaction "MOCK_TOKEN"
  = false /\
  score_calls
    (trace (VolatilityFrontRunStrategy.execute volatility_cancelled_price
              example_transaction))
  = [CallScore (VolatilityScore (Value MockAPIConfig.historical) CancelledInstance
                  (Value {[ "bullish_trend" := true; "high_volatility" := true;
                            "low_liquidity" := false ]}))].
Proof.
  apply (volatility_scores_cancelled_price volatility_cancelled_price example_transaction
           ∅ "MOCK_TOKEN" "0x7a250d5630B4cF539739dF2C5dAcb4c659F2488D"); reflexivity.
Defined.

(** X22.  Each reading of the market conditions in the advanced variant
    depends on its own key only: when the key is missing, whatever other
    keys the mapping holds, the trend is read as not bullish, the
    volatility as not high and the liquidity as not sufficient. *)
Theorem readings_default_by_key :
  forall (m : conditions),
    (m !! "bullish_trend" = None ->
     AdvancedFrontRunStrategy.is_bullish (Value m) = Returned false) /\
    (m !! "high_volatility" = None ->
     AdvancedFrontRunStrategy.is_volatile (Value m) = Returned false) /\
    (m !! "low_liquidity" = None ->
     AdvancedFrontRunStrategy.has_liquidity (Value m) = Returned false).
Proof.
  intros m.
  unfold AdvancedFrontRunStrategy.is_bullish, AdvancedFrontRunStrategy.is_volatile,
    AdvancedFrontRunStrategy.has_liquidity, dict_get.
  repeat split; intros ->; reflexivity.
Qed.

Lemma readings_default_by_key_witness :
  AdvancedFrontRunStrategy.is_bullish (Value {[ "low_liquidity" := false ]})
  = Returned false /\
  AdvancedFrontRunStrategy.is_volatile (Value {[ "bullish_trend" := true ]})
  = Returned false /\
  AdvancedFrontRunStrategy.has_liquidity (Value {[ "bullish_trend" := true ]})
  = Returned false.
Proof.
  split; [|split].
  - apply (proj1 (readings_default_by_key {[ "low_liquidity" := false ]})).
    reflexivity.
  - apply (proj1 (proj2 (readings_default_by_key {[ "bullish_trend" := true ]}))).
    reflexivity.
  - apply (proj2 (proj2 (readings_default_by_key {[ "bullish_trend" := true ]}))).
    reflexivity.
Defined.
